(** * Admin query service ([src/services/admin.service.ts])

    A shallow embedding of the five exported functions of the admin
    service and of the part of the database boundary they talk to.

    Conventions of the embedding.
    - A JavaScript [number] is an IEEE 754 binary64 value, and [-], [*]
      and [+] are the operations of the Standard Library's specification
      of floating-point arithmetic ([SpecFloat]).  The count of the
      database's answer and the length of an array are integers.
    - A template literal is kept as its pieces; the conversion of a
      number to text is the engine's and is not part of the model.
    - An optional field ([page?: number]) is an [option]; the argument
      [params] itself is optional as well ([params = {}]).
    - Enum-typed strings ([Enums<'user_role'>], [PostStatus], ...) are the
      strings they are at run time.
    - The query builder is mutated in place by the source; here every
      builder call returns the builder with the call recorded, in the
      order the source issues the calls.
    - [await], [console.log], [console.error], [new Date()] and [throw]
      are the operations of a small monad [Prog]. *)

From Stdlib Require Import ZArith List String Ascii Bool Lia SpecFloat.
Import ListNotations.

Local Open Scope Z_scope.
Local Open Scope string_scope.

(* ================================================================== *)
(** ** JavaScript values *)

Module Js.

(** A [number]: a binary64 value. *)
Module Number.

Local Open Scope Z_scope.

Definition prec : Z := 53.
Definition emax : Z := 1024.

Definition t : Type := spec_float.

Definition add : t -> t -> t := SFadd prec emax.
Definition sub : t -> t -> t := SFsub prec emax.
Definition mul : t -> t -> t := SFmul prec emax.

(** The number nearest to the integer [n]; the literals [1] and [10]
    are [of_Z 1] and [of_Z 10]. *)
Definition of_Z (n : Z) : t := binary_normalize prec emax n 0 false.

(** The integer a number is, if it is one. *)
Definition to_Z (x : t) : option Z :=
  match x with
  | S754_zero _ => Some 0
  | S754_finite s m e =>
      if 0 <=? e then Some (cond_Zopp s (Zpos m * 2 ^ e))
      else if Zpos m mod 2 ^ (- e) =? 0
           then Some (cond_Zopp s (Zpos m / 2 ^ (- e)))
           else None
  | _ => None
  end.

End Number.

Definition number : Type := Number.t.

(** Truthiness of a string value: every string but the empty one. *)
Definition truthy (s : string) : bool := negb (s =? "").

(** [if (x)] on an optional string: [undefined] and [""] are falsy. *)
Definition provided (x : option string) : option string :=
  match x with
  | Some s => if truthy s then Some s else None
  | None => None
  end.

(** [a = d] in a destructuring pattern, and [a ?? d]. *)
Definition default {A : Type} (d : A) (x : option A) : A :=
  match x with Some a => a | None => d end.

(** [xs.includes(x)] on an array of strings. *)
Definition includes (xs : list string) (x : string) : bool :=
  existsb (String.eqb x) xs.

Definition newline : string := String "010"%char EmptyString.

End Js.

(* ================================================================== *)
(** ** The database boundary as the service sees it *)

(** A row is the list of its columns; [None] is SQL [NULL]. *)
Definition Row : Type := list (string * option string).

(** One call on the query builder. *)
Inductive Call : Type :=
| CSelect (columns : string) (count : option string)
| COr (filters : string)
| CEq (column value : string)
| CRange (from to : Js.number)
| COrder (column : string) (ascending : bool)
| CUpdate (values : Row).

(** The builder: the table named in [.from(...)] and the calls made on
    it so far, oldest first. *)
Record Query : Type := { table : string; calls : list Call }.

Definition from (t : string) : Query := {| table := t; calls := [] |}.

Definition call (q : Query) (c : Call) : Query :=
  {| table := table q; calls := (calls q ++ [c])%list |}.

Record PostgrestError : Type :=
  { message : string; details : string; hint : string; code : string }.

(** What [await query] resolves to. *)
Record Response : Type :=
  { data : option (list Row);
    error : option PostgrestError;
    count : option Z }.

(* ================================================================== *)
(** ** Effects *)

(** A piece of a template literal: text, or a value put into it. *)
Inductive Piece : Type :=
| Text (s : string)
| Num (n : Js.number)
| Int (n : Z)
| Undefined
| Null.

Inductive Event : Type :=
| console_log (message : list Piece)
| console_error (line : string) (err : PostgrestError)
| request (q : Query).

(** [new Error(msg)]. *)
Inductive JsError : Type := Error (msg : string).

Inductive Completion (A : Type) : Type :=
| Normal (a : A)
| Thrown (e : JsError).
Arguments Normal {A} a.
Arguments Thrown {A} e.

(** The client handle made by [createSupabaseAdminClient()] answers
    queries; the clock answers [new Date().toISOString()]. *)
Record Env : Type := { client : Query -> Response; clock : string }.

Definition Prog (A : Type) : Type :=
  Env -> list Event -> list Event * Completion A.

Definition ret {A} (a : A) : Prog A := fun _ tr => (tr, Normal a).

Definition bind {A B} (m : Prog A) (k : A -> Prog B) : Prog B :=
  fun env tr =>
    match m env tr with
    | (tr', Normal a) => k a env tr'
    | (tr', Thrown e) => (tr', Thrown e)
    end.

Definition throw {A} (e : JsError) : Prog A := fun _ tr => (tr, Thrown e).

Definition emit (ev : Event) : Prog unit :=
  fun _ tr => ((tr ++ [ev])%list, Normal tt).

Definition await (q : Query) : Prog Response :=
  fun env tr => ((tr ++ [request q])%list, Normal (client env q)).

Definition Date_now_toISOString : Prog string :=
  fun env tr => (tr, Normal (clock env)).

Notation "x <- m ;; k" := (bind m (fun x => k))
  (at level 61, m at next level, right associativity).
Notation "m ;; k" := (bind m (fun _ => k))
  (at level 61, right associativity).

(** Running a function from an empty log. *)
Definition run {A} (p : Prog A) (env : Env) : list Event * Completion A :=
  p env [].

Definition events {A} (p : Prog A) (env : Env) : list Event := fst (run p env).
Definition outcome {A} (p : Prog A) (env : Env) : Completion A := snd (run p env).

(** The queries a run sent to the database, in order. *)
Fixpoint requests (tr : list Event) : list Query :=
  match tr with
  | [] => []
  | request q :: tr' => q :: requests tr'
  | _ :: tr' => requests tr'
  end.

(* ================================================================== *)
(** ** Parameter and result shapes *)

Module GetUsersParams.
Record t : Type :=
  { page : option Js.number;
    limit : option Js.number;
    search : option string;
    role : option string;
    tier : option string }.
(** [{}] *)
Definition empty : t :=
  {| page := None; limit := None; search := None; role := None; tier := None |}.
End GetUsersParams.

Module GetAdminPostsParams.
Record t : Type := { page : option Js.number; limit : option Js.number }.
Definition empty : t := {| page := None; limit := None |}.
End GetAdminPostsParams.

Module GetReportsParams.
Record t : Type :=
  { page : option Js.number; limit : option Js.number; status : option string }.
Definition empty : t := {| page := None; limit := None; status := None |}.
End GetReportsParams.

Module UsersPage.
Record t : Type := { users : option (list Row); count : Z }.
End UsersPage.

Module PostsPage.
Record t : Type := { posts : list Row; count : Z }.
End PostsPage.

Module ReportsPage.
Record t : Type := { reports : option (list Row); count : Z }.
End ReportsPage.

Record Ack : Type := { success : bool }.

(* ================================================================== *)
(** ** The service functions *)

Module AdminService.

Import Js.

(** [${data?.length}]: the length, or [undefined] for a null row set. *)
Definition show_length (d : option (list Row)) : Piece :=
  match d with
  | Some rows => Int (Z.of_nat (List.length rows))
  | None => Undefined
  end.

(** [${data?.length || 0}] *)
Definition show_length_or_0 (d : option (list Row)) : Piece :=
  match d with
  | Some rows => Int (Z.of_nat (List.length rows))
  | None => Int 0
  end.

(** [${count}] *)
Definition show_count (c : option Z) : Piece :=
  match c with
  | Some n => Int n
  | None => Null
  end.

(** [if (x) { query.f(x) }] *)
Definition when_provided (x : option string) (f : string -> Call) (q : Query)
  : Query :=
  match provided x with
  | Some s => call q (f s)
  | None => q
  end.

Definition getUsersForAdmin (params : option GetUsersParams.t)
  : Prog UsersPage.t :=
  let params := default GetUsersParams.empty params in
  let page := default (Number.of_Z 1) (GetUsersParams.page params) in
  let limit := default (Number.of_Z 10) (GetUsersParams.limit params) in
  let search := GetUsersParams.search params in
  let role := GetUsersParams.role params in
  let tier := GetUsersParams.tier params in
  let query := call (from "users") (CSelect "*" (Some "exact")) in
  let query :=
    when_provided search
      (fun s => COr ("nickname.ilike.%" ++ s ++ "%,email.ilike.%" ++ s ++ "%"))
      query in
  let query := when_provided role (CEq "role") query in
  let query := when_provided tier (CEq "tier") query in
  let start := Number.mul (Number.sub page (Number.of_Z 1)) limit in
  let end_ := Number.sub (Number.add start limit) (Number.of_Z 1) in
  let query := call query (CRange start end_) in
  let query := call query (COrder "created_at" false) in
  r <- await query ;;
  match error r with
  | Some e =>
      emit (console_error "Error fetching users for admin:" e) ;;
      throw (Error ("Failed to fetch users: " ++ message e))
  | None =>
      emit (console_log [Text "Fetched "; show_length (data r);
                         Text " users for admin (total: ";
                         show_count (count r); Text ")"]) ;;
      ret {| UsersPage.users := data r;
             UsersPage.count := default 0 (count r) |}
  end.

Definition posts_columns : string :=
  newline ++ "      *," ++ newline ++ "      users!inner ( * )," ++ newline
  ++ "      tags ( * )" ++ newline ++ "    ".

Definition getPostsForAdmin (params : option GetAdminPostsParams.t)
  : Prog PostsPage.t :=
  let params := default GetAdminPostsParams.empty params in
  let page := default (Number.of_Z 1) (GetAdminPostsParams.page params) in
  let limit := default (Number.of_Z 10) (GetAdminPostsParams.limit params) in
  emit (console_log [Text "Fetching posts for admin: page="; Num page;
                     Text ", limit="; Num limit]) ;;
  let from_ := Number.mul (Number.sub page (Number.of_Z 1)) limit in
  let to := Number.sub (Number.add from_ limit) (Number.of_Z 1) in
  let query := call (from "posts") (CSelect posts_columns (Some "exact")) in
  let query := call query (COrder "created_at" false) in
  let query := call query (CRange from_ to) in
  r <- await query ;;
  match error r with
  | Some e =>
      emit (console_error "Error fetching posts for admin:" e) ;;
      throw (Error ("Failed to fetch posts: " ++ message e))
  | None =>
      emit (console_log [Text "Fetched "; show_length_or_0 (data r);
                         Text " posts for admin (total: ";
                         show_count (count r); Text ")"]) ;;
      ret {| PostsPage.posts := default [] (data r);
             PostsPage.count := default 0 (count r) |}
  end.

Definition reports_columns : string :=
  newline ++ "      *," ++ newline ++ "      posts ( id, title )," ++ newline
  ++ "      users:reporter_user_id ( id, nickname )" ++ newline ++ "    ".

Definition getReportsForAdmin (params : option GetReportsParams.t)
  : Prog ReportsPage.t :=
  let params := default GetReportsParams.empty params in
  let page := default (Number.of_Z 1) (GetReportsParams.page params) in
  let limit := default (Number.of_Z 10) (GetReportsParams.limit params) in
  let status := GetReportsParams.status params in
  let query := call (from "reports") (CSelect reports_columns (Some "exact")) in
  let query := when_provided status (CEq "status") query in
  let start := Number.mul (Number.sub page (Number.of_Z 1)) limit in
  let end_ := Number.sub (Number.add start limit) (Number.of_Z 1) in
  let query := call query (CRange start end_) in
  let query := call query (COrder "created_at" false) in
  r <- await query ;;
  match error r with
  | Some e =>
      emit (console_error "Error fetching reports for admin:" e) ;;
      throw (Error ("Failed to fetch reports: " ++ message e))
  | None =>
      emit (console_log [Text "Fetched "; show_length (data r);
                         Text " reports for admin (total: ";
                         show_count (count r); Text ")"]) ;;
      ret {| ReportsPage.reports := data r;
             ReportsPage.count := default 0 (count r) |}
  end.

Definition updateReportStatusForAdmin (reportId status adminId : string)
  : Prog Ack :=
  resolved_at <-
    (if includes ["resolved"; "dismissed"] status
     then now <- Date_now_toISOString ;; ret (Some now)
     else ret None) ;;
  let updateData : Row :=
    [ ("status", Some status);
      ("resolver_admin_id", Some adminId);
      ("resolved_at", resolved_at) ] in
  let query := call (from "reports") (CUpdate updateData) in
  let query := call query (CEq "id" reportId) in
  r <- await query ;;
  match error r with
  | Some e =>
      emit (console_error ("Error updating report " ++ reportId
                           ++ " status for admin:") e) ;;
      throw (Error ("Failed to update report status: " ++ message e))
  | None =>
      emit (console_log [Text "Report "; Text reportId;
                         Text " status updated to "; Text status;
                         Text " by admin "; Text adminId]) ;;
      ret {| success := true |}
  end.

Definition updatePostStatusForAdmin (postId status : string) : Prog Ack :=
  emit (console_log [Text "Updating post "; Text postId;
                     Text " status to "; Text status; Text " for admin..."]) ;;
  ret {| success := true |}.

End AdminService.


(* ================================================================== *)
(** ** The database behind the client handle

    The service functions above run against any client.  What a request
    means for the rows of a table is fixed here, for the requests the
    service builds: filters, sort, row range, exact count and update. *)

Module Postgrest.

Local Open Scope char_scope.

Definition chars : string -> list ascii := list_ascii_of_string.

(** The value of column [c] in a row; a missing column reads as [NULL]. *)
Fixpoint column (c : string) (r : Row) : option string :=
  match r with
  | [] => None
  | (k, v) :: r' => if (k =? c)%string then v else column c r'
  end.

(** *** Patterns *)

(** Case folding of [ILIKE], on the ASCII letters. *)
Definition lower (c : ascii) : ascii :=
  let n := N_of_ascii c in
  if ((65 <=? n) && (n <=? 90))%N then ascii_of_N (n + 32) else c.

(** Modelled from the spec: the pattern predicate of the database
    boundary (section 6), read as SQL reads a [LIKE] pattern: [%] stands
    for any run of characters, [_] for any one character, and a
    backslash takes the next character literally. *)
Fixpoint like (p : list ascii) : list ascii -> bool :=
  match p with
  | [] => fun s => match s with [] => true | _ :: _ => false end
  | c :: p' =>
      if c =? "%" then
        fix any (s : list ascii) : bool :=
          like p' s || match s with [] => false | _ :: s' => any s' end
      else if c =? "_" then
        fun s => match s with [] => false | _ :: s' => like p' s' end
      else if c =? "092" then
        match p' with
        | [] => fun _ => false
        | d :: p'' =>
            fun s => match s with [] => false | x :: s' => (x =? d) && like p'' s' end
        end
      else
        fun s => match s with [] => false | x :: s' => (x =? c) && like p' s' end
  end.

(** Modelled from the spec: in a request [*] may be written for [%]. *)
Definition wildcard (c : ascii) : ascii := if c =? "*" then "%" else c.

Definition ilike (pattern value : list ascii) : bool :=
  like (map lower (map wildcard pattern)) (map lower value).

(** *** The filter list of [or=(...)] *)

Inductive Cond : Type :=
| Ilike (col : string) (pattern : list ascii)
| Equal (col : string) (value : string).

(** The pieces of [s] between the occurrences of [sep]. *)
Fixpoint split_on (sep : ascii) (s : list ascii) : list (list ascii) :=
  match s with
  | [] => [[]]
  | c :: s' =>
      if c =? sep then [] :: split_on sep s'
      else match split_on sep s' with
           | h :: t => (c :: h) :: t
           | [] => [[c]]
           end
  end.

(** [s] cut at its first [sep]. *)
Fixpoint cut (sep : ascii) (s : list ascii) : option (list ascii * list ascii) :=
  match s with
  | [] => None
  | c :: s' =>
      if c =? sep then Some ([], s')
      else match cut sep s' with
           | Some (a, b) => Some (c :: a, b)
           | None => None
           end
  end.

(** One condition, [column.operator.value]. *)
Definition parse_cond (s : list ascii) : option Cond :=
  match cut "." s with
  | Some (col, rest) =>
      match cut "." rest with
      | Some (op, v) =>
          let col := string_of_list_ascii col in
          let op := string_of_list_ascii op in
          if (op =? "ilike")%string then Some (Ilike col v)
          else if (op =? "eq")%string then Some (Equal col (string_of_list_ascii v))
          else None
      | None => None
      end
  | None => None
  end.

Definition paren (c : ascii) : bool := (c =? "(") || (c =? ")").

Fixpoint sequence {A} (xs : list (option A)) : option (list A) :=
  match xs with
  | [] => Some []
  | Some a :: xs' => option_map (cons a) (sequence xs')
  | None :: _ => None
  end.

(** Modelled from the spec: the OR combination of the database boundary
    (section 6), a flat, comma-separated list of conditions
    [column.operator.value].  Nested groups are outside this fragment of
    the grammar: a parenthesis is rejected. *)
Definition parse_or (filters : string) : option (list Cond) :=
  let s := chars filters in
  if existsb paren s then None
  else sequence (map parse_cond (split_on "," s)).

Definition holds (c : Cond) (r : Row) : bool :=
  match c with
  | Ilike col p =>
      match column col r with
      | Some v => ilike p (chars v)
      | None => false
      end
  | Equal col v =>
      match column col r with
      | Some x => (x =? v)%string
      | None => false
      end
  end.

(** Modelled from the spec: the filter calls of a query are combined
    with AND, the conditions inside one [or(...)] with OR (section 6).
    [None]: the request is malformed. *)
Fixpoint where_ (cs : list Call) : option (Row -> bool) :=
  match cs with
  | [] => Some (fun _ => true)
  | COr f :: cs' =>
      match parse_or f, where_ cs' with
      | Some conds, Some w =>
          Some (fun r => existsb (fun c => holds c r) conds && w r)
      | _, _ => None
      end
  | CEq col v :: cs' =>
      option_map (fun w r => holds (Equal col v) r && w r) (where_ cs')
  | _ :: cs' => where_ cs'
  end.

(** *** Ordering and the row range *)

(** The sort keys of a query: its [order] calls, first key first. *)
Fixpoint ordering (cs : list Call) : list (string * bool) :=
  match cs with
  | [] => []
  | COrder c asc :: cs' => (c, asc) :: ordering cs'
  | _ :: cs' => ordering cs'
  end.

(** [NULL] sorts above every value. *)
Definition compare_value (a b : option string) : comparison :=
  match a, b with
  | None, None => Eq
  | None, Some _ => Gt
  | Some _, None => Lt
  | Some x, Some y => String.compare x y
  end.

(** [r1] need not move behind [r2] under the sort keys. *)
Fixpoint in_order (keys : list (string * bool)) (r1 r2 : Row) : bool :=
  match keys with
  | [] => true
  | (c, asc) :: keys' =>
      match compare_value (column c r1) (column c r2) with
      | Eq => in_order keys' r1 r2
      | Lt => asc
      | Gt => negb asc
      end
  end.

Fixpoint insert (keys : list (string * bool)) (r : Row) (rows : list Row)
  : list Row :=
  match rows with
  | [] => [r]
  | r' :: rows' =>
      if in_order keys r r' then r :: rows else r' :: insert keys r rows'
  end.

Definition sort (keys : list (string * bool)) (rows : list Row) : list Row :=
  fold_right (insert keys) [] rows.

(** The row range of a query: its last [range] call. *)
Fixpoint window (cs : list Call) : option (Js.number * Js.number) :=
  match cs with
  | [] => None
  | CRange a b :: cs' =>
      match window cs' with
      | Some w => Some w
      | None => Some (a, b)
      end
  | _ :: cs' => window cs'
  end.

(** The bounds of a row range are row numbers: integers. *)
Definition bounds (r : Js.number * Js.number) : option (Z * Z) :=
  match Js.Number.to_Z (fst r), Js.Number.to_Z (snd r) with
  | Some a, Some b => Some (a, b)
  | _, _ => None
  end.

(** A list without its first [n] rows, and its first [n] rows. *)
Fixpoint drop (n : Z) (rows : list Row) : list Row :=
  match rows with
  | [] => []
  | _ :: rows' => if (n <=? 0)%Z then rows else drop (n - 1)%Z rows'
  end.

Fixpoint take (n : Z) (rows : list Row) : list Row :=
  match rows with
  | [] => []
  | r :: rows' => if (n <=? 0)%Z then [] else r :: take (n - 1)%Z rows'
  end.

(** Rows [a] to [b] of a list, zero-indexed, both ends included. *)
Definition slice (a b : Z) (rows : list Row) : list Row :=
  take (b - a + 1)%Z (drop a rows).

(** Whether an exact count was asked for. *)
Fixpoint counting (cs : list Call) : bool :=
  match cs with
  | [] => false
  | CSelect _ (Some k) :: cs' => (k =? "exact")%string || counting cs'
  | _ :: cs' => counting cs'
  end.

(** The values of an update, if the query is one. *)
Fixpoint updating (cs : list Call) : option Row :=
  match cs with
  | [] => None
  | CUpdate vs :: _ => Some vs
  | _ :: cs' => updating cs'
  end.

(** *** Required relations *)

(** The column list of a query: the argument of its [select] calls. *)
Fixpoint selected (cs : list Call) : list string :=
  match cs with
  | [] => []
  | CSelect columns _ :: cs' => columns :: selected cs'
  | _ :: cs' => selected cs'
  end.

Definition blank (c : ascii) : bool :=
  (c =? " ") || (c =? "009") || (c =? "010") || (c =? "013").

(** The items of a column list: its pieces between the commas that are
    not inside parentheses.  [cur] is the item read so far, last
    character first. *)
Fixpoint items (depth : nat) (cur : list ascii) (s : list ascii)
  : list (list ascii) :=
  match s with
  | [] => [rev cur]
  | c :: s' =>
      if c =? "(" then items (S depth) (c :: cur) s'
      else if c =? ")" then items (pred depth) (c :: cur) s'
      else if (c =? ",") && (depth =? 0)%nat then rev cur :: items 0 [] s'
      else items depth (c :: cur) s'
  end.

(** The relation an item embeds as required: [users!inner(...)] names
    [users]; an alias before a colon is dropped. *)
Definition inner_relation (item : list ascii) : option string :=
  match cut "(" item with
  | Some (head, _) =>
      match split_on "!" head with
      | name :: hints =>
          if existsb (fun h => (string_of_list_ascii h =? "inner")%string) hints
          then Some (string_of_list_ascii (last (split_on ":" name) name))
          else None
      | [] => None
      end
  | None => None
  end.

Fixpoint somes {A} (xs : list (option A)) : list A :=
  match xs with
  | [] => []
  | Some a :: xs' => a :: somes xs'
  | None :: xs' => somes xs'
  end.

(** Modelled from the spec: the relations a column list requires (the
    inner relations of section 4.1 and of the glossary).  White space in
    a column list has no meaning. *)
Definition inner_relations (columns : string) : list string :=
  somes (map inner_relation
             (items 0 [] (filter (fun c => negb (blank c)) (chars columns)))).

(** *** Running a request *)

(** A foreign key: the column of a table that holds the [id] of a row
    of another table. *)
Record ForeignKey : Type :=
  { fk_table : string; fk_column : string; fk_target : string }.

Record Database : Type :=
  { tables : list (string * list Row);
    foreign_keys : list ForeignKey }.

Fixpoint lookup (t : string) (ts : list (string * list Row))
  : option (list Row) :=
  match ts with
  | [] => None
  | (k, rows) :: ts' => if (k =? t)%string then Some rows else lookup t ts'
  end.

Definition relation (t : string) (db : Database) : option (list Row) :=
  lookup t (tables db).

Fixpoint replace (t : string) (rows : list Row) (ts : list (string * list Row))
  : list (string * list Row) :=
  match ts with
  | [] => []
  | (k, old) :: ts' =>
      if (k =? t)%string then (k, rows) :: ts' else (k, old) :: replace t rows ts'
  end.

Definition store (t : string) (rows : list Row) (db : Database) : Database :=
  {| tables := replace t rows (tables db); foreign_keys := foreign_keys db |}.

(** The column of table [t] that refers to table [target]. *)
Fixpoint reference (t target : string) (fks : list ForeignKey) : option string :=
  match fks with
  | [] => None
  | fk :: fks' =>
      if ((fk_table fk =? t) && (fk_target fk =? target))%string
      then Some (fk_column fk)
      else reference t target fks'
  end.

(** Row [r] refers, in column [c], to the [id] of one of [others]. *)
Definition refers (c : string) (others : list Row) (r : Row) : bool :=
  match column c r with
  | Some v =>
      existsb (fun u => match column "id" u with
                        | Some i => (i =? v)%string
                        | None => false
                        end) others
  | None => false
  end.

(** Modelled from the spec: a row is kept under a required relation if
    the row it refers to can be resolved (sections 4.1 and 8.7).
    [None]: the database knows no such relation. *)
Definition resolves (db : Database) (t target : string) : option (Row -> bool) :=
  match reference t target (foreign_keys db), relation target db with
  | Some c, Some others => Some (refers c others)
  | _, _ => None
  end.

Definition joins (db : Database) (t : string) (cs : list Call)
  : option (list (Row -> bool)) :=
  sequence (map (resolves db t) (flat_map inner_relations (selected cs))).

(** The rows that every required relation keeps. *)
Fixpoint joined (js : list (Row -> bool)) (rows : list Row) : list Row :=
  match js with
  | [] => rows
  | j :: js' => joined js' (filter j rows)
  end.

(** [r] with column [c] set to [v]. *)
Fixpoint set_column (c : string) (v : option string) (r : Row) : Row :=
  match r with
  | [] => [(c, v)]
  | (k, x) :: r' =>
      if (k =? c)%string then (k, v) :: r' else (k, x) :: set_column c v r'
  end.

Definition patch (vs : Row) (r : Row) : Row :=
  fold_left (fun acc kv => set_column (fst kv) (snd kv) acc) vs r.

Definition failure (msg : string) : Response :=
  {| data := None;
     error := Some {| message := msg; details := ""; hint := ""; code := "" |};
     count := None |}.

(** Modelled from the spec: the client handle of
    [createSupabaseAdminClient] ([@/lib/supabase/admin] is not among the
    sources) and the database behind it, after the database boundary of
    section 6: equality and case-insensitive pattern predicates combined
    with AND and OR, required relations, ordering by a column, an
    inclusive zero-indexed row range applied to the ordered rows, an
    exact count of the matching rows whatever the range, and partial
    updates of the rows the filters select.  The pattern language is
    SQL's, as the source relies on when it wraps the search term in [%].
    A row that is kept is returned as it is in its table: the column
    projection and the objects of the embedded relations are not
    attached to it. *)
Definition exec (db : Database) (q : Query) : Database * Response :=
  match relation (table q) db, where_ (calls q), joins db (table q) (calls q) with
  | None, _, _ => (db, failure "relation does not exist")
  | Some _, None, _ => (db, failure "failed to parse logic tree")
  | Some _, Some _, None => (db, failure "could not find a relationship")
  | Some rows, Some w, Some js =>
      match updating (calls q) with
      | Some vs =>
          (store (table q)
                 (map (fun r => if w r then patch vs r else r) rows) db,
           {| data := None; error := None; count := None |})
      | None =>
          let hits := joined js (filter w rows) in
          let sorted := sort (ordering (calls q)) hits in
          let total :=
            if counting (calls q)
            then Some (Z.of_nat (List.length hits)) else None in
          match window (calls q) with
          | None => (db, {| data := Some sorted; error := None; count := total |})
          | Some r =>
              match bounds r with
              | None => (db, failure "invalid range")
              | Some (a, b) =>
                  if (a <? 0)%Z || (b - a + 1 <? 0)%Z
                  then (db, failure "requested range not satisfiable")
                  else (db, {| data := Some (slice a b sorted);
                               error := None; count := total |})
              end
          end
      end
  end.

(** The environment of a run against a database [db] at time [now]. *)
Definition serving (db : Database) (now : string) : Env :=
  {| client := fun q => snd (exec db q); clock := now |}.

End Postgrest.

(* ================================================================== *)
(** ** Vocabulary of the specification *)

Import Js AdminService.

(** The queries a function sends when run in [env]. *)
Definition sent {A} (p : Prog A) (env : Env) : list Query :=
  requests (events p env).

(** The row ranges a query asks for. *)
Fixpoint ranges (cs : list Call) : list (number * number) :=
  match cs with
  | [] => []
  | CRange a b :: cs' => (a, b) :: ranges cs'
  | _ :: cs' => ranges cs'
  end.

(** The same, each bound as the integer it is ([None] if it is none). *)
Definition range_values (cs : list Call) : list (option Z * option Z) :=
  map (fun r => (Number.to_Z (fst r), Number.to_Z (snd r))) (ranges cs).

(** [Number.MAX_SAFE_INTEGER], 2^53 - 1. *)
Definition MAX_SAFE_INTEGER : Z := 9007199254740991.

(** An integer whose number is exact. *)
Definition safe (v : Z) : Prop := (Z.abs v <= MAX_SAFE_INTEGER)%Z.

(** The bits of a positive integer. *)
Definition digits (n : positive) : Z := Zpos (digits2_pos n).

(** The number of the integer [n], [n] of at most 53 bits, with sign
    [s]: the mantissa holds [n] in its upper bits. *)
Definition canon (s : bool) (n : positive) : number :=
  S754_finite s (Z.to_pos (Zpos n * 2 ^ (53 - digits n))%Z) (digits n - 53)%Z.

Definition sign (v : Z) : bool := (v <? 0)%Z.

(** The equality filters of a query. *)
Fixpoint equalities (cs : list Call) : list (string * string) :=
  match cs with
  | [] => []
  | CEq c v :: cs' => (c, v) :: equalities cs'
  | _ :: cs' => equalities cs'
  end.

(** The two failure kinds of the specification.  The source throws a
    plain [Error] in both cases; the kind is told by the message. *)
Inductive FailureKind : Type := QueryFailure | UpdateFailure.

Definition kind_of (e : JsError) : option FailureKind :=
  match e with
  | Error m =>
      if prefix "Failed to fetch " m then Some QueryFailure
      else if prefix "Failed to update " m then Some UpdateFailure
      else None
  end.

Definition is_sort (c : Call) : bool :=
  match c with
  | COrder col asc => (col =? "created_at") && negb asc
  | _ => false
  end.

Definition is_range (c : Call) : bool :=
  match c with
  | CRange _ _ => true
  | _ => false
  end.

(** Some call satisfying [p] is made, and a call satisfying [q] is made
    later on. *)
Fixpoint applied_before (p q : Call -> bool) (cs : list Call) : bool :=
  match cs with
  | [] => false
  | c :: cs' => (p c && existsb q cs') || applied_before p q cs'
  end.

(** *** Case-insensitive containment, as the specification words the
    search filter *)

Fixpoint prefixb (p s : list ascii) : bool :=
  match p, s with
  | [], _ => true
  | _ :: _, [] => false
  | c :: p', x :: s' => (x =? c)%char && prefixb p' s'
  end.

(** [p] occurs in [s] as a contiguous run. *)
Fixpoint infixb (p s : list ascii) : bool :=
  prefixb p s || match s with [] => false | _ :: s' => infixb p s' end.

Definition includes_ci (needle hay : string) : bool :=
  infixb (map Postgrest.lower (Postgrest.chars needle))
         (map Postgrest.lower (Postgrest.chars hay)).

(** Column [c] of row [u] contains [needle], whatever the case. *)
Definition field_includes (c needle : string) (u : Row) : bool :=
  match Postgrest.column c u with
  | Some v => includes_ci needle v
  | None => false
  end.

(** The search disjunction: nickname or email contains the search term. *)
Definition matches_search (s : string) (u : Row) : bool :=
  field_includes "nickname" s u || field_includes "email" s u.

(** An optional equality filter: satisfied if absent. *)
Definition matches_eq (c : string) (x : option string) (u : Row) : bool :=
  match provided x with
  | Some v =>
      match Postgrest.column c u with
      | Some y => y =? v
      | None => false
      end
  | None => true
  end.

(** Column [c] of row [u] matches the pattern [%term%]. *)
Definition field_like (c term : string) (u : Row) : bool :=
  match Postgrest.column c u with
  | Some v =>
      Postgrest.ilike ("%"%char :: Postgrest.chars term ++ ["%"%char])%list
                      (Postgrest.chars v)
  | None => false
  end.

(** The search filter as it is sent: nickname or email matches the
    pattern made of the search term. *)
Definition matches_pattern (s : string) (u : Row) : bool :=
  field_like "nickname" s u || field_like "email" s u.



(** The characters with a meaning of their own in a pattern or in a
    filter list. *)
Definition special (c : ascii) : bool :=
  ((c =? "%") || (c =? "_") || (c =? "*") || (c =? "092") || (c =? ","))%char.

Definition plain (s : string) : bool :=
  forallb (fun c => negb (special c)) (Postgrest.chars s).

(** A character that stands for itself in a [LIKE] pattern. *)
Definition ordinary (c : ascii) : bool :=
  negb ((c =? "%") || (c =? "_") || (c =? "092"))%char.

(** *** The queries, and the answer to a listing, in closed form *)

(** The rows that pass the filters, sorted, then cut to the row range;
    the count is that of the rows that pass the filters. *)
Definition listing (keys : list (string * bool)) (w : Row -> bool)
           (range : Z * Z) (rows : list Row) : Response :=
  let '(a, b) := range in
  if ((a <? 0) || (b - a + 1 <? 0))%Z
  then Postgrest.failure "requested range not satisfiable"
  else {| data := Some (Postgrest.slice a b
                          (Postgrest.sort keys (filter w rows)));
          error := None;
          count := Some (Z.of_nat (List.length (filter w rows))) |}.

(** The same for a range of numbers, which must be integers. *)
Definition listing_at (keys : list (string * bool)) (w : Row -> bool)
           (range : number * number) (rows : list Row) : Response :=
  match Postgrest.bounds range with
  | Some r => listing keys w r rows
  | None => Postgrest.failure "invalid range"
  end.

Definition opt_call (x : option string) (f : string -> Call) : list Call :=
  match provided x with
  | Some s => [f s]
  | None => []
  end.

Definition page_range (page limit : option number) : number * number :=
  let p := default (Number.of_Z 1) page in
  let l := default (Number.of_Z 10) limit in
  let start := Number.mul (Number.sub p (Number.of_Z 1)) l in
  (start, Number.sub (Number.add start l) (Number.of_Z 1)).

Definition search_filter (s : string) : Call :=
  COr ("nickname.ilike.%" ++ s ++ "%,email.ilike.%" ++ s ++ "%").

Definition users_query (p : GetUsersParams.t) : Query :=
  let '(a, b) := page_range (GetUsersParams.page p) (GetUsersParams.limit p) in
  {| table := "users";
     calls := ([CSelect "*" (Some "exact")]
               ++ opt_call (GetUsersParams.search p) search_filter
               ++ opt_call (GetUsersParams.role p) (CEq "role")
               ++ opt_call (GetUsersParams.tier p) (CEq "tier")
               ++ [CRange a b; COrder "created_at" false])%list |}.

Definition posts_query (p : GetAdminPostsParams.t) : Query :=
  let '(a, b) :=
    page_range (GetAdminPostsParams.page p) (GetAdminPostsParams.limit p) in
  {| table := "posts";
     calls := [CSelect posts_columns (Some "exact");
               COrder "created_at" false; CRange a b] |}.

Definition reports_query (p : GetReportsParams.t) : Query :=
  let '(a, b) :=
    page_range (GetReportsParams.page p) (GetReportsParams.limit p) in
  {| table := "reports";
     calls := ([CSelect reports_columns (Some "exact")]
               ++ opt_call (GetReportsParams.status p) (CEq "status")
               ++ [CRange a b; COrder "created_at" false])%list |}.

Definition update_values (status adminId now : string) : Row :=
  [ ("status", Some status);
    ("resolver_admin_id", Some adminId);
    ("resolved_at",
      if includes ["resolved"; "dismissed"] status then Some now else None) ].

Definition report_update_query (reportId status adminId now : string) : Query :=
  {| table := "reports";
     calls := [CUpdate (update_values status adminId now); CEq "id" reportId] |}.

(** Parameter objects with the pagination fields only. *)
Definition users_at (page limit : Z) : GetUsersParams.t :=
  {| GetUsersParams.page := Some (Number.of_Z page);
     GetUsersParams.limit := Some (Number.of_Z limit);
     GetUsersParams.search := None; GetUsersParams.role := None;
     GetUsersParams.tier := None |}.

Definition posts_at (page limit : Z) : GetAdminPostsParams.t :=
  {| GetAdminPostsParams.page := Some (Number.of_Z page);
     GetAdminPostsParams.limit := Some (Number.of_Z limit) |}.

Definition reports_at (page limit : Z) : GetReportsParams.t :=
  {| GetReportsParams.page := Some (Number.of_Z page);
     GetReportsParams.limit := Some (Number.of_Z limit);
     GetReportsParams.status := None |}.

(** *** Sample data *)

Definition user (id nickname email role tier created_at : string) : Row :=
  [ ("id", Some id); ("nickname", Some nickname); ("email", Some email);
    ("role", Some role); ("tier", Some tier); ("created_at", Some created_at) ].

Definition bob : Row := user "1" "bob" "b@x.io" "member" "free" "2024-01-01".
Definition joanna : Row := user "2" "Joanna" "jo@x.io" "admin" "pro" "2024-02-01".
Definition carl : Row := user "3" "carl" "hANNah@x.io" "admin" "free" "2024-03-01".

Definition report (id status : string) : Row :=
  [ ("id", Some id); ("status", Some status); ("resolver_admin_id", None);
    ("resolved_at", None); ("created_at", Some "2024-05-01") ].

Definition post (id user_id title created_at : string) : Row :=
  [ ("id", Some id); ("user_id", Some user_id); ("title", Some title);
    ("status", Some "pending"); ("created_at", Some created_at) ].

(** A post of bob, and a post whose owner is gone. *)
Definition hello : Row := post "p1" "1" "hello" "2024-04-01".
Definition orphan : Row := post "p2" "404" "lost" "2024-04-02".

Definition sample : Postgrest.Database :=
  {| Postgrest.tables :=
       [ ("users", [bob; joanna; carl]);
         ("posts", [hello; orphan]);
         ("reports", [report "r1" "pending"; report "r2" "pending"]) ];
     Postgrest.foreign_keys :=
       [ {| Postgrest.fk_table := "posts"; Postgrest.fk_column := "user_id";
            Postgrest.fk_target := "users" |};
         {| Postgrest.fk_table := "reports"; Postgrest.fk_column := "post_id";
            Postgrest.fk_target := "posts" |};
         {| Postgrest.fk_table := "reports";
            Postgrest.fk_column := "reporter_user_id";
            Postgrest.fk_target := "users" |} ] |}.

(** A users table of 2^53 + 5 rows, to look at a page far out. *)
Definition crowd : list Row := repeat [] (Z.to_nat 9007199254740997).

Definition crowded : Postgrest.Database :=
  {| Postgrest.tables := [("users", crowd)]; Postgrest.foreign_keys := [] |}.

Definition searching (s : string) : GetUsersParams.t :=
  {| GetUsersParams.page := None; GetUsersParams.limit := None;
     GetUsersParams.search := Some s; GetUsersParams.role := None;
     GetUsersParams.tier := None |}.

(** A client whose every answer is the same. *)
Definition answering (r : Response) : Env :=
  {| client := fun _ => r; clock := "2024-06-01T00:00:00.000Z" |}.

Definition broken : PostgrestError :=
  {| message := "connection refused"; details := ""; hint := ""; code := "" |}.

(** *** Further vocabulary *)

(** The error objects passed to [console.error] during a run. *)
Fixpoint errors_logged (tr : list Event) : list PostgrestError :=
  match tr with
  | [] => []
  | console_error _ e :: tr' => e :: errors_logged tr'
  | _ :: tr' => errors_logged tr'
  end.

(** The parameter object with every falsy filter left out. *)
Definition users_without_empty (p : GetUsersParams.t) : GetUsersParams.t :=
  {| GetUsersParams.page := GetUsersParams.page p;
     GetUsersParams.limit := GetUsersParams.limit p;
     GetUsersParams.search := provided (GetUsersParams.search p);
     GetUsersParams.role := provided (GetUsersParams.role p);
     GetUsersParams.tier := provided (GetUsersParams.tier p) |}.

Definition reports_without_empty (p : GetReportsParams.t) : GetReportsParams.t :=
  {| GetReportsParams.page := GetReportsParams.page p;
     GetReportsParams.limit := GetReportsParams.limit p;
     GetReportsParams.status := provided (GetReportsParams.status p) |}.

(** The parameter object turned to another page. *)
Definition users_on (page limit : Z) (p : GetUsersParams.t) : GetUsersParams.t :=
  {| GetUsersParams.page := Some (Number.of_Z page);
     GetUsersParams.limit := Some (Number.of_Z limit);
     GetUsersParams.search := GetUsersParams.search p;
     GetUsersParams.role := GetUsersParams.role p;
     GetUsersParams.tier := GetUsersParams.tier p |}.

Definition reports_on (page limit : Z) (p : GetReportsParams.t)
  : GetReportsParams.t :=
  {| GetReportsParams.page := Some (Number.of_Z page);
     GetReportsParams.limit := Some (Number.of_Z limit);
     GetReportsParams.status := GetReportsParams.status p |}.

(** Each row is in order with the row after it. *)
Fixpoint in_sequence (keys : list (string * bool)) (rows : list Row) : bool :=
  match rows with
  | [] => true
  | r1 :: rest =>
      match rest with
      | [] => true
      | r2 :: _ => Postgrest.in_order keys r1 r2 && in_sequence keys rest
      end
  end.

(** The change a report update makes to one row. *)
Definition amend (reportId status adminId now : string) (r : Row) : Row :=
  if Postgrest.holds (Postgrest.Equal "id" reportId) r
  then Postgrest.patch (update_values status adminId now) r
  else r.

(** The posts of [db] whose owner can be resolved, for the foreign key
    column [c] of posts. *)
Definition owned (c : string) (users : list Row) (posts : list Row) : list Row :=
  filter (Postgrest.refers c users) posts.

(** The first entry of row [r] for column [c] holds [v]. *)
Fixpoint has_entry (c : string) (v : option string) (r : Row) : Prop :=
  match r with
  | [] => False
  | (k, x) :: r' => if k =? c then x = v else has_entry c v r'
  end.

(* ================================================================== *)
(** ** Numbers: where the arithmetic is exact *)

Section Doubles.

Import Js.Number.
Local Open Scope Z_scope.

Lemma safe_small v : safe v <-> Z.abs v < 2 ^ 53.
Proof.
  unfold safe, MAX_SAFE_INTEGER. change (2 ^ 53) with 9007199254740992. lia.
Qed.

Lemma digits_log2 n : digits n = Z.log2 (Zpos n) + 1.
Proof.
  unfold digits.
  assert (E : digits2_pos n = Pos.size n) by (induction n; cbn; congruence).
  rewrite E. destruct n; cbn; lia.
Qed.

Lemma digits_pos n : 1 <= digits n.
Proof. unfold digits. lia. Qed.

Lemma digits_shift (M n : positive) (k : Z) :
  0 <= k -> Zpos M = Zpos n * 2 ^ k -> digits M = digits n + k.
Proof.
  intros Hk E. rewrite !digits_log2, E, Z.log2_mul_pow2 by lia. lia.
Qed.

Lemma digits_bound n : Zpos n < 2 ^ 53 -> digits n <= 53.
Proof.
  intros H. rewrite digits_log2.
  assert (Z.log2 (Zpos n) < 53) by (apply Z.log2_lt_pow2; lia). lia.
Qed.

Lemma shr_1_double (y : Z) :
  shr_1 (Build_shr_record (2 * y) false false) = Build_shr_record y false false.
Proof. destruct y; reflexivity. Qed.

(** Shifting out as many bits as there are zeros at the end loses
    nothing. *)
Lemma shr_iter (p : positive) :
  forall q : Z,
    iter_pos shr_1 p (Build_shr_record (q * 2 ^ Zpos p) false false)
    = Build_shr_record q false false.
Proof.
  induction p as [p IH | p IH |]; intros q; cbn [iter_pos].
  - replace (q * 2 ^ Zpos p~1) with (2 * ((q * 2 ^ Zpos p) * 2 ^ Zpos p)).
    + rewrite shr_1_double, !IH. reflexivity.
    + replace (Zpos p~1) with (Zpos p + Zpos p + 1) by lia.
      rewrite !Z.pow_add_r by lia. ring.
  - replace (q * 2 ^ Zpos p~0) with ((q * 2 ^ Zpos p) * 2 ^ Zpos p).
    + rewrite !IH. reflexivity.
    + replace (Zpos p~0) with (Zpos p + Zpos p) by lia.
      rewrite !Z.pow_add_r by lia. ring.
  - rewrite Z.pow_1_r, Z.mul_comm. apply shr_1_double.
Qed.

Lemma fexp_digits d : 1 <= d -> fexp prec emax d = d - 53.
Proof. intros H. unfold fexp, emin, prec, emax. lia. Qed.

(** Rounding a mantissa that holds an integer of at most 53 bits, and
    zeros after it, is exact. *)
Lemma binary_round_aux_exact (s : bool) (M n : positive) (k : Z) :
  0 <= k -> Zpos M = Zpos n * 2 ^ k ->
  digits n <= 53 -> 0 <= digits n - 53 + k ->
  binary_round_aux prec emax s (Zpos M) (- k) loc_Exact = canon s n.
Proof.
  intros Hk E Hd Hs. pose proof (digits_pos n) as Hp.
  pose proof (digits_shift M n k Hk E) as DM.
  assert (P : 0 < Zpos n * 2 ^ (53 - digits n)).
  { apply Z.mul_pos_pos; [lia | apply Z.pow_pos_nonneg; lia]. }
  assert (C : Zdigits2 (Zpos (Z.to_pos (Zpos n * 2 ^ (53 - digits n)))) = 53).
  { change (digits (Z.to_pos (Zpos n * 2 ^ (53 - digits n))) = 53).
    rewrite (digits_shift _ n (53 - digits n)); [lia | lia |].
    rewrite Z2Pos.id; [reflexivity | exact P]. }
  unfold binary_round_aux, shr_fexp.
  change (Zdigits2 (Zpos M)) with (digits M). rewrite DM.
  replace (digits n + k + - k) with (digits n) by lia.
  rewrite fexp_digits by lia.
  replace (digits n - 53 - - k) with (digits n - 53 + k) by lia.
  cbn [shr_record_of_loc].
  assert (R : shr (Build_shr_record (Zpos M) false false) (- k) (digits n - 53 + k)
              = (Build_shr_record (Zpos (Z.to_pos (Zpos n * 2 ^ (53 - digits n))))
                                  false false,
                 digits n - 53)).
  { rewrite Z2Pos.id by exact P.
    destruct (digits n - 53 + k) as [| p | p] eqn:S; [| | lia].
    - cbn [shr]. f_equal; [| lia]. f_equal. rewrite E. f_equal. f_equal. lia.
    - cbn [shr]. f_equal; [| lia].
      rewrite <- (shr_iter p (Zpos n * 2 ^ (53 - digits n))). f_equal. f_equal.
      rewrite E, <- Z.mul_assoc, <- Z.pow_add_r by lia. f_equal. f_equal. lia. }
  rewrite R. cbn [shr_m loc_of_shr_record round_nearest_even].
  rewrite C.
  replace (53 + (digits n - 53)) with (digits n) by lia.
  rewrite fexp_digits by lia. rewrite Z.sub_diag. cbn [shr shr_m].
  unfold canon.
  replace (digits n - 53 <=? emax - prec) with true; [reflexivity |].
  symmetry. apply Z.leb_le. unfold emax, prec. lia.
Qed.

Lemma iter_xO (M : positive) (p : positive) :
  Zpos (Pos.iter xO M p) = Zpos M * 2 ^ Zpos p.
Proof.
  change (Pos.iter xO M p) with (shift_pos p M).
  rewrite shift_pos_correct. change (Zpower_pos 2 p) with (2 ^ Zpos p). ring.
Qed.

Lemma binary_round_exact (s : bool) (M n : positive) (k : Z) :
  0 <= k -> Zpos M = Zpos n * 2 ^ k -> digits n <= 53 ->
  binary_round prec emax s M (- k) = canon s n.
Proof.
  intros Hk E Hd. pose proof (digits_pos n) as Hp.
  unfold binary_round.
  change (Zpos (digits2_pos M)) with (digits M).
  rewrite (digits_shift M n k Hk E).
  replace (digits n + k + - k) with (digits n) by lia.
  rewrite fexp_digits by lia. unfold shl_align.
  destruct (digits n - 53 - - k) as [| p | p] eqn:S.
  - apply binary_round_aux_exact; auto; lia.
  - apply binary_round_aux_exact; auto; lia.
  - replace (digits n - 53) with (- (53 - digits n)) by lia.
    apply binary_round_aux_exact; try lia.
    rewrite iter_xO, E, <- Z.mul_assoc, <- Z.pow_add_r by lia.
    f_equal. f_equal. lia.
Qed.

Lemma binary_normalize_exact (m v k : Z) :
  0 <= k -> m = v * 2 ^ k -> v <> 0 -> safe v ->
  binary_normalize prec emax m (- k) false = canon (sign v) (Z.to_pos (Z.abs v)).
Proof.
  intros Hk E N B. apply safe_small in B.
  assert (P : 0 < 2 ^ k) by (apply Z.pow_pos_nonneg; lia).
  assert (D : digits (Z.to_pos (Z.abs v)) <= 53).
  { apply digits_bound. rewrite Z2Pos.id; lia. }
  unfold binary_normalize, sign. destruct m as [| M | M].
  - exfalso. symmetry in E. apply Z.mul_eq_0 in E. lia.
  - assert (0 < v) by nia.
    replace (v <? 0) with false by (symmetry; apply Z.ltb_ge; lia).
    apply binary_round_exact; auto.
    rewrite Z2Pos.id by lia. rewrite Z.abs_eq by lia. exact E.
  - assert (v < 0) by nia.
    replace (v <? 0) with true by (symmetry; apply Z.ltb_lt; lia).
    apply binary_round_exact; auto.
    rewrite Z2Pos.id by lia. rewrite Z.abs_neq by lia.
    rewrite Z.mul_opp_l, <- E. reflexivity.
Qed.

Lemma of_Z_canon (v : Z) :
  v <> 0 -> safe v -> of_Z v = canon (sign v) (Z.to_pos (Z.abs v)).
Proof.
  intros N B. unfold of_Z. change 0 with (- 0) at 1.
  apply binary_normalize_exact; auto; lia.
Qed.

Lemma safe_digits a : a <> 0 -> safe a -> digits (Z.to_pos (Z.abs a)) <= 53.
Proof.
  intros N A. apply safe_small in A. apply digits_bound. rewrite Z2Pos.id; lia.
Qed.

Lemma to_Z_canon s n :
  digits n <= 53 -> to_Z (canon s n) = Some (cond_Zopp s (Zpos n)).
Proof.
  intros D. pose proof (digits_pos n) as Hp. unfold canon, to_Z.
  assert (P : 0 < 2 ^ (53 - digits n)) by (apply Z.pow_pos_nonneg; lia).
  rewrite Z2Pos.id by (apply Z.mul_pos_pos; lia).
  destruct (0 <=? digits n - 53) eqn:E.
  - apply Z.leb_le in E. replace (digits n) with 53 by lia.
    cbn [Z.sub Z.add Z.opp Z.pos_sub Z.pow Z.pow_pos Pos.iter].
    rewrite !Z.mul_1_r. reflexivity.
  - replace (- (digits n - 53)) with (53 - digits n) by lia.
    rewrite Z.mod_mul by lia. cbn [Z.eqb]. rewrite Z.div_mul by lia. reflexivity.
Qed.

(** A safe integer and its number are one another's. *)
Lemma to_Z_of_Z v : safe v -> to_Z (of_Z v) = Some v.
Proof.
  intros B. destruct (Z.eq_dec v 0) as [-> | N]; [reflexivity |].
  rewrite of_Z_canon by assumption.
  rewrite to_Z_canon by (apply safe_digits; assumption).
  rewrite Z2Pos.id by lia. unfold sign, cond_Zopp.
  destruct (v <? 0) eqn:E; [apply Z.ltb_lt in E | apply Z.ltb_ge in E];
    f_equal; lia.
Qed.

Lemma canon_mantissa n :
  digits n <= 53 ->
  Zpos (Z.to_pos (Zpos n * 2 ^ (53 - digits n))) = Zpos n * 2 ^ (53 - digits n).
Proof.
  intros D. apply Z2Pos.id. apply Z.mul_pos_pos; [lia |].
  apply Z.pow_pos_nonneg; lia.
Qed.

Lemma shl_align_fst (m : positive) (e e' : Z) :
  e' <= e -> Zpos (fst (shl_align m e e')) = Zpos m * 2 ^ (e - e').
Proof.
  intros H. unfold shl_align. destruct (e' - e) as [| p | p] eqn:S; cbn [fst].
  - replace (e - e') with 0 by lia. lia.
  - lia.
  - rewrite iter_xO. f_equal. f_equal. lia.
Qed.

Lemma signed_canon v :
  v <> 0 -> cond_Zopp (sign v) (Zpos (Z.to_pos (Z.abs v))) = v.
Proof.
  intros N. rewrite Z2Pos.id by lia. unfold sign, cond_Zopp.
  destruct (v <? 0) eqn:E; [apply Z.ltb_lt in E | apply Z.ltb_ge in E]; lia.
Qed.

(** The mantissa of a safe integer, aligned to a lower exponent. *)
Lemma aligned (a : Z) (ez : Z) :
  a <> 0 -> safe a -> ez <= digits (Z.to_pos (Z.abs a)) - 53 ->
  cond_Zopp (sign a)
    (Zpos (fst (shl_align (Z.to_pos (Zpos (Z.to_pos (Z.abs a))
                                     * 2 ^ (53 - digits (Z.to_pos (Z.abs a)))))
                          (digits (Z.to_pos (Z.abs a)) - 53) ez)))
  = a * 2 ^ (- ez).
Proof.
  intros N B H. pose proof (safe_digits a N B) as D.
  set (n := Z.to_pos (Z.abs a)) in *.
  rewrite shl_align_fst by exact H. rewrite canon_mantissa by exact D.
  rewrite <- Z.mul_assoc, <- Z.pow_add_r by lia.
  replace (53 - digits n + (digits n - 53 - ez)) with (- ez) by lia.
  rewrite <- (signed_canon a N) at 2. fold n.
  unfold cond_Zopp. destruct (sign a); [rewrite Z.mul_opp_l |]; reflexivity.
Qed.

(** Sums, differences and products of safe integers are exact as long
    as they are safe. *)
Lemma add_exact a b :
  safe a -> safe b -> safe (a + b) -> add (of_Z a) (of_Z b) = of_Z (a + b).
Proof.
  intros A B S.
  destruct (Z.eq_dec a 0) as [-> | Na].
  { destruct (Z.eq_dec b 0) as [-> | Nb]; [reflexivity |].
    cbn [Z.add]. rewrite (of_Z_canon b) by assumption. reflexivity. }
  destruct (Z.eq_dec b 0) as [-> | Nb].
  { rewrite Z.add_0_r. rewrite (of_Z_canon a) by assumption. reflexivity. }
  rewrite (of_Z_canon a), (of_Z_canon b) by assumption.
  unfold add, canon. cbn [SFadd].
  pose proof (safe_digits a Na A) as Ha. pose proof (safe_digits b Nb B) as Hb.
  rewrite (aligned a) by (auto; lia). rewrite (aligned b) by (auto; lia).
  set (ez := Z.min _ _) in *.
  rewrite <- Z.mul_add_distr_r.
  destruct (Z.eq_dec (a + b) 0) as [Z0 | Ns].
  - rewrite Z0. reflexivity.
  - rewrite of_Z_canon by assumption.
    replace ez with (- - ez) at 2 by lia.
    apply binary_normalize_exact; auto; lia.
Qed.

Lemma sub_exact a b :
  safe a -> safe b -> safe (a - b) -> sub (of_Z a) (of_Z b) = of_Z (a - b).
Proof.
  intros A B S.
  destruct (Z.eq_dec b 0) as [-> | Nb].
  { rewrite Z.sub_0_r. destruct (Z.eq_dec a 0) as [-> | Na]; [reflexivity |].
    rewrite (of_Z_canon a) by assumption. reflexivity. }
  destruct (Z.eq_dec a 0) as [-> | Na].
  { cbn [Z.sub Z.add].
    rewrite (of_Z_canon b), (of_Z_canon (- b))
      by (assumption || lia || (unfold safe in *; lia)).
    unfold sub, canon. cbn [of_Z binary_normalize SFsub].
    rewrite Z.abs_opp. f_equal. unfold sign.
    destruct (b <? 0) eqn:E; [apply Z.ltb_lt in E | apply Z.ltb_ge in E];
      cbn [negb]; symmetry; [apply Z.ltb_ge | apply Z.ltb_lt]; lia. }
  rewrite (of_Z_canon a), (of_Z_canon b) by assumption.
  unfold sub, canon. cbn [SFsub].
  pose proof (safe_digits a Na A) as Ha. pose proof (safe_digits b Nb B) as Hb.
  rewrite (aligned a) by (auto; lia). rewrite (aligned b) by (auto; lia).
  set (ez := Z.min _ _) in *.
  rewrite <- Z.mul_sub_distr_r.
  destruct (Z.eq_dec (a - b) 0) as [Z0 | Ns].
  - rewrite Z0. reflexivity.
  - rewrite of_Z_canon by assumption.
    replace ez with (- - ez) at 2 by lia.
    apply binary_normalize_exact; auto; lia.
Qed.

Lemma mul_exact a b :
  safe a -> safe b -> safe (a * b) ->
  (a = 0 -> 0 <= b) -> (b = 0 -> 0 <= a) ->
  mul (of_Z a) (of_Z b) = of_Z (a * b).
Proof.
  intros A B S Za Zb.
  destruct (Z.eq_dec a 0) as [-> | Na].
  { specialize (Za eq_refl). cbn [Z.mul].
    destruct (Z.eq_dec b 0) as [-> | Nb]; [reflexivity |].
    rewrite (of_Z_canon b) by assumption.
    unfold mul, canon, sign. cbn [of_Z binary_normalize SFmul].
    replace (b <? 0) with false by (symmetry; apply Z.ltb_ge; lia). reflexivity. }
  destruct (Z.eq_dec b 0) as [-> | Nb].
  { specialize (Zb eq_refl). rewrite Z.mul_0_r.
    rewrite (of_Z_canon a) by assumption.
    unfold mul, canon, sign. cbn [of_Z binary_normalize SFmul].
    replace (a <? 0) with false by (symmetry; apply Z.ltb_ge; lia). reflexivity. }
  assert (Nab : a * b <> 0) by nia.
  rewrite (of_Z_canon a), (of_Z_canon b), (of_Z_canon (a * b)) by assumption.
  pose proof (safe_digits a Na A) as Ha. pose proof (safe_digits b Nb B) as Hb.
  pose proof (safe_digits (a * b) Nab S) as Hab.
  unfold mul. unfold canon at 1 2. cbn [SFmul].
  set (na := Z.to_pos (Z.abs a)) in *. set (nb := Z.to_pos (Z.abs b)) in *.
  set (n := Z.to_pos (Z.abs (a * b))) in *.
  assert (En : Zpos n = Zpos na * Zpos nb).
  { subst n na nb. rewrite !Z2Pos.id by lia. apply Z.abs_mul. }
  assert (Dn : digits na + digits nb - 1 <= digits n).
  { rewrite !digits_log2, En.
    pose proof (Z.log2_mul_below (Zpos na) (Zpos nb)). lia. }
  replace (xorb (sign a) (sign b)) with (sign (a * b)).
  2: { unfold sign.
       destruct (a <? 0) eqn:Ea, (b <? 0) eqn:Eb; cbn [xorb];
         [apply Z.ltb_lt in Ea | apply Z.ltb_lt in Ea
          | apply Z.ltb_ge in Ea | apply Z.ltb_ge in Ea];
         [apply Z.ltb_lt in Eb | apply Z.ltb_ge in Eb
          | apply Z.ltb_lt in Eb | apply Z.ltb_ge in Eb];
         [apply Z.ltb_ge | apply Z.ltb_lt | apply Z.ltb_lt | apply Z.ltb_ge]; nia. }
  replace (digits na - 53 + (digits nb - 53))
    with (- ((53 - digits na) + (53 - digits nb))) by lia.
  pose proof (digits_pos na). pose proof (digits_pos nb).
  apply binary_round_aux_exact; try lia.
  rewrite Pos2Z.inj_mul, !canon_mantissa, En, Z.pow_add_r by lia. ring.
Qed.

End Doubles.
(* ================================================================== *)
(** ** Running the functions against any client *)

Ltac step_service :=
  unfold sent, events, outcome, run, bind, await, emit, ret, throw,
    Date_now_toISOString; cbn [fst snd app requests].

Ltac closed_form :=
  cbv beta iota zeta delta
    [users_query posts_query reports_query report_update_query
     page_range search_filter];
  cbn [app].

Ltac by_filters :=
  unfold users_query, reports_query;
  destruct (page_range _ _) as [lo hi]; cbn [calls]; unfold opt_call;
  repeat match goal with
         | |- context [provided ?x] => destruct (provided x)
         end;
  reflexivity.

Lemma when_provided_calls (x : option string) (f : string -> Call) (q : Query) :
  when_provided x f q =
  {| table := table q; calls := (calls q ++ opt_call x f)%list |}.
Proof.
  unfold when_provided, opt_call. destruct (provided x); cbn.
  - reflexivity.
  - rewrite app_nil_r. destruct q; reflexivity.
Qed.

Section AnyClient.

Variable env : Env.

Lemma getUsersForAdmin_run (p : GetUsersParams.t) :
  run (getUsersForAdmin (Some p)) env =
  let q := users_query p in
  let r := client env q in
  match error r with
  | Some e =>
      ([request q; console_error "Error fetching users for admin:" e],
       Thrown (Error ("Failed to fetch users: " ++ message e)))
  | None =>
      ([request q;
        console_log [Text "Fetched "; show_length (data r);
                     Text " users for admin (total: ";
                     show_count (count r); Text ")"]],
       Normal {| UsersPage.users := data r;
                 UsersPage.count := default 0 (count r) |})
  end.
Proof.
  unfold getUsersForAdmin, call, from. rewrite !when_provided_calls.
  cbn [default table calls app].
  rewrite <- !app_assoc. closed_form. step_service.
  match goal with |- context [client env ?q] => set (Q := q) end.
  destruct (error (client env Q)); reflexivity.
Qed.

Lemma getPostsForAdmin_run (p : GetAdminPostsParams.t) :
  run (getPostsForAdmin (Some p)) env =
  let q := posts_query p in
  let r := client env q in
  let hello :=
    console_log
      [Text "Fetching posts for admin: page=";
       Num (default (Number.of_Z 1) (GetAdminPostsParams.page p));
       Text ", limit=";
       Num (default (Number.of_Z 10) (GetAdminPostsParams.limit p))] in
  match error r with
  | Some e =>
      ([hello; request q; console_error "Error fetching posts for admin:" e],
       Thrown (Error ("Failed to fetch posts: " ++ message e)))
  | None =>
      ([hello; request q;
        console_log [Text "Fetched "; show_length_or_0 (data r);
                     Text " posts for admin (total: ";
                     show_count (count r); Text ")"]],
       Normal {| PostsPage.posts := default [] (data r);
                 PostsPage.count := default 0 (count r) |})
  end.
Proof.
  unfold getPostsForAdmin, call, from.
  cbn [default table calls app]. closed_form. step_service.
  match goal with |- context [client env ?q] => set (Q := q) end.
  destruct (error (client env Q)); reflexivity.
Qed.

Lemma getReportsForAdmin_run (p : GetReportsParams.t) :
  run (getReportsForAdmin (Some p)) env =
  let q := reports_query p in
  let r := client env q in
  match error r with
  | Some e =>
      ([request q; console_error "Error fetching reports for admin:" e],
       Thrown (Error ("Failed to fetch reports: " ++ message e)))
  | None =>
      ([request q;
        console_log [Text "Fetched "; show_length (data r);
                     Text " reports for admin (total: ";
                     show_count (count r); Text ")"]],
       Normal {| ReportsPage.reports := data r;
                 ReportsPage.count := default 0 (count r) |})
  end.
Proof.
  unfold getReportsForAdmin, call, from. rewrite !when_provided_calls.
  cbn [default table calls app].
  rewrite <- !app_assoc. closed_form. step_service.
  match goal with |- context [client env ?q] => set (Q := q) end.
  destruct (error (client env Q)); reflexivity.
Qed.

Lemma updateReportStatusForAdmin_run (reportId status adminId : string) :
  run (updateReportStatusForAdmin reportId status adminId) env =
  let q := report_update_query reportId status adminId (clock env) in
  let r := client env q in
  match error r with
  | Some e =>
      ([request q;
        console_error ("Error updating report " ++ reportId
                       ++ " status for admin:") e],
       Thrown (Error ("Failed to update report status: " ++ message e)))
  | None =>
      ([request q;
        console_log [Text "Report "; Text reportId;
                     Text " status updated to "; Text status;
                     Text " by admin "; Text adminId]],
       Normal {| success := true |})
  end.
Proof.
  unfold updateReportStatusForAdmin, call, from.
  cbn [table calls app]. closed_form. unfold update_values.
  destruct (includes _ status); step_service;
    match goal with |- context [client env ?q] => set (Q := q) end;
    destruct (error (client env Q)); reflexivity.
Qed.

Lemma updatePostStatusForAdmin_run (postId status : string) :
  run (updatePostStatusForAdmin postId status) env =
  ([console_log [Text "Updating post "; Text postId;
                 Text " status to "; Text status; Text " for admin..."]],
   Normal {| success := true |}).
Proof. reflexivity. Qed.

(** What each function sends and how it completes, read off its run. *)

Lemma users_sent p : sent (getUsersForAdmin (Some p)) env = [users_query p].
Proof.
  unfold sent, events. rewrite getUsersForAdmin_run. cbv zeta.
  destruct (error _); reflexivity.
Qed.

Lemma posts_sent p : sent (getPostsForAdmin (Some p)) env = [posts_query p].
Proof.
  unfold sent, events. rewrite getPostsForAdmin_run. cbv zeta.
  destruct (error _); reflexivity.
Qed.

Lemma reports_sent p : sent (getReportsForAdmin (Some p)) env = [reports_query p].
Proof.
  unfold sent, events. rewrite getReportsForAdmin_run. cbv zeta.
  destruct (error _); reflexivity.
Qed.

Lemma report_update_sent reportId status adminId :
  sent (updateReportStatusForAdmin reportId status adminId) env =
  [report_update_query reportId status adminId (clock env)].
Proof.
  unfold sent, events. rewrite updateReportStatusForAdmin_run. cbv zeta.
  destruct (error _); reflexivity.
Qed.

Lemma users_outcome p :
  outcome (getUsersForAdmin (Some p)) env =
  let r := client env (users_query p) in
  match error r with
  | Some e => Thrown (Error ("Failed to fetch users: " ++ message e))
  | None => Normal {| UsersPage.users := data r;
                      UsersPage.count := default 0 (count r) |}
  end.
Proof.
  unfold outcome. rewrite getUsersForAdmin_run. cbv zeta.
  destruct (error _); reflexivity.
Qed.

Lemma posts_outcome p :
  outcome (getPostsForAdmin (Some p)) env =
  let r := client env (posts_query p) in
  match error r with
  | Some e => Thrown (Error ("Failed to fetch posts: " ++ message e))
  | None => Normal {| PostsPage.posts := default [] (data r);
                      PostsPage.count := default 0 (count r) |}
  end.
Proof.
  unfold outcome. rewrite getPostsForAdmin_run. cbv zeta.
  destruct (error _); reflexivity.
Qed.

Lemma reports_outcome p :
  outcome (getReportsForAdmin (Some p)) env =
  let r := client env (reports_query p) in
  match error r with
  | Some e => Thrown (Error ("Failed to fetch reports: " ++ message e))
  | None => Normal {| ReportsPage.reports := data r;
                      ReportsPage.count := default 0 (count r) |}
  end.
Proof.
  unfold outcome. rewrite getReportsForAdmin_run. cbv zeta.
  destruct (error _); reflexivity.
Qed.

Lemma report_update_outcome reportId status adminId :
  outcome (updateReportStatusForAdmin reportId status adminId) env =
  let r := client env (report_update_query reportId status adminId (clock env)) in
  match error r with
  | Some e => Thrown (Error ("Failed to update report status: " ++ message e))
  | None => Normal {| success := true |}
  end.
Proof.
  unfold outcome. rewrite updateReportStatusForAdmin_run. cbv zeta.
  destruct (error _); reflexivity.
Qed.

End AnyClient.

(** A call without its argument is a call with [{}]. *)

Lemma users_arg p :
  getUsersForAdmin p = getUsersForAdmin (Some (default GetUsersParams.empty p)).
Proof. destruct p; reflexivity. Qed.

Lemma posts_arg p :
  getPostsForAdmin p = getPostsForAdmin (Some (default GetAdminPostsParams.empty p)).
Proof. destruct p; reflexivity. Qed.

Lemma reports_arg p :
  getReportsForAdmin p = getReportsForAdmin (Some (default GetReportsParams.empty p)).
Proof. destruct p; reflexivity. Qed.

Lemma users_ranges p :
  ranges (calls (users_query p)) =
  [page_range (GetUsersParams.page p) (GetUsersParams.limit p)].
Proof.
  unfold users_query. destruct (page_range _ _) as [a b]. cbn [calls].
  unfold opt_call.
  destruct (provided (GetUsersParams.search p));
    destruct (provided (GetUsersParams.role p));
    destruct (provided (GetUsersParams.tier p)); reflexivity.
Qed.

Lemma posts_ranges p :
  ranges (calls (posts_query p)) =
  [page_range (GetAdminPostsParams.page p) (GetAdminPostsParams.limit p)].
Proof.
  unfold posts_query. destruct (page_range _ _) as [a b]. reflexivity.
Qed.

Lemma reports_ranges p :
  ranges (calls (reports_query p)) =
  [page_range (GetReportsParams.page p) (GetReportsParams.limit p)].
Proof.
  unfold reports_query. destruct (page_range _ _) as [a b]. cbn [calls].
  unfold opt_call.
  destruct (provided (GetReportsParams.status p)); reflexivity.
Qed.

(** The range of a page, where the arithmetic is exact. *)

Section PageRange.

Import Js.Number.
Local Open Scope Z_scope.

Lemma page_range_exact (page limit : option number) (P L : Z) :
  default (of_Z 1) page = of_Z P -> default (of_Z 10) limit = of_Z L ->
  safe P -> safe L -> safe (P - 1) -> safe ((P - 1) * L) ->
  safe ((P - 1) * L + L) -> safe ((P - 1) * L + L - 1) ->
  (P - 1 = 0 -> 0 <= L) -> (L = 0 -> 0 <= P - 1) ->
  page_range page limit = (of_Z ((P - 1) * L), of_Z ((P - 1) * L + L - 1)).
Proof.
  intros Ep El SP SL S1 S2 S3 S4 Z1 Z2. unfold page_range. cbv zeta.
  rewrite Ep, El.
  assert (O : safe 1) by (unfold safe, MAX_SAFE_INTEGER; lia).
  rewrite (sub_exact P 1) by assumption.
  rewrite (mul_exact (P - 1) L) by assumption.
  rewrite (add_exact ((P - 1) * L) L) by assumption.
  rewrite (sub_exact ((P - 1) * L + L) 1) by assumption.
  reflexivity.
Qed.

Lemma page_range_forward (page limit : option number) (P L : Z) :
  default (of_Z 1) page = of_Z P -> default (of_Z 10) limit = of_Z L ->
  1 <= P -> 0 <= L -> P <= MAX_SAFE_INTEGER -> P * L <= MAX_SAFE_INTEGER ->
  page_range page limit = (of_Z ((P - 1) * L), of_Z ((P - 1) * L + L - 1)).
Proof.
  intros Ep El HP HL BP B.
  apply page_range_exact; auto; unfold safe, MAX_SAFE_INTEGER in *; nia.
Qed.


Lemma range_values_exact (a b : Z) :
  safe a -> safe b ->
  (to_Z (fst (of_Z a, of_Z b)), to_Z (snd (of_Z a, of_Z b))) = (Some a, Some b).
Proof. intros A B. cbn [fst snd]. rewrite !to_Z_of_Z by assumption. reflexivity. Qed.

End PageRange.
(* ================================================================== *)
(** ** Pagination *)

Section Ranges.

Import Js.Number.

Lemma forward_values (page limit : option number) (P L : Z) :
  default (of_Z 1) page = of_Z P -> default (of_Z 10) limit = of_Z L ->
  1 <= P -> 0 <= L -> P <= MAX_SAFE_INTEGER -> P * L <= MAX_SAFE_INTEGER ->
  map (fun r => (to_Z (fst r), to_Z (snd r))) [page_range page limit]
  = [(Some ((P - 1) * L), Some ((P - 1) * L + L - 1))].
Proof.
  intros Ep El HP HL BP B.
  rewrite (page_range_forward page limit P L) by assumption.
  cbn [map]. rewrite range_values_exact; [reflexivity | |];
    unfold safe, MAX_SAFE_INTEGER in *; nia.
Qed.


End Ranges.

(** C2, as it is worded, does not hold: a number is a binary64 value,
    and on page 3002399751580332 of size 3 the start (page-1)*limit,
    9007199254740993, is none; the range sent is 9007199254740992 to
    9007199254740996. *)
Lemma pagination_rounds :
  ~ (map (fun q => range_values (calls q))
         (sent (getUsersForAdmin (Some (users_at 3002399751580332 3)))
               (answering {| data := Some []; error := None; count := Some 0 |}))
     = [[(Some ((3002399751580332 - 1) * 3),
          Some ((3002399751580332 - 1) * 3 + 3 - 1))]]).
Proof. intros H. vm_compute in H. discriminate. Qed.

(** C2, amended.  For every list operation and all integers [page >= 1]
    and [limit >= 1] with [page * limit] at most
    [Number.MAX_SAFE_INTEGER], the one query sent carries exactly one
    row range, and it is
    [[(page-1)*limit, (page-1)*limit + limit - 1]]. *)
Theorem pagination_row_range (env : Env) (page limit : Z) :
  1 <= page -> 1 <= limit -> page * limit <= MAX_SAFE_INTEGER ->
  let window :=
    [(Some ((page - 1) * limit), Some ((page - 1) * limit + limit - 1))] in
  (forall search role tier,
      map (fun q => range_values (calls q))
          (sent (getUsersForAdmin
                   (Some {| GetUsersParams.page := Some (Number.of_Z page);
                            GetUsersParams.limit := Some (Number.of_Z limit);
                            GetUsersParams.search := search;
                            GetUsersParams.role := role;
                            GetUsersParams.tier := tier |})) env)
      = [window])
  /\ map (fun q => range_values (calls q))
         (sent (getPostsForAdmin
                  (Some {| GetAdminPostsParams.page := Some (Number.of_Z page);
                           GetAdminPostsParams.limit := Some (Number.of_Z limit) |}))
               env)
     = [window]
  /\ (forall status,
         map (fun q => range_values (calls q))
             (sent (getReportsForAdmin
                      (Some {| GetReportsParams.page := Some (Number.of_Z page);
                               GetReportsParams.limit := Some (Number.of_Z limit);
                               GetReportsParams.status := status |})) env)
         = [window]).
Proof.
  intros Hp Hl B window.
  assert (Bp : page <= MAX_SAFE_INTEGER) by nia.
  split; [| split]; intros.
  - rewrite users_sent. cbn [map]. unfold range_values. rewrite users_ranges.
    f_equal. apply forward_values; auto; lia.
  - rewrite posts_sent. cbn [map]. unfold range_values. rewrite posts_ranges.
    f_equal. apply forward_values; auto; lia.
  - rewrite reports_sent. cbn [map]. unfold range_values. rewrite reports_ranges.
    f_equal. apply forward_values; auto; lia.
Qed.

(** Page 2 of size 10 is rows 10 to 19. *)
Lemma page_2_of_10_example :
  map (fun q => range_values (calls q))
      (sent (getPostsForAdmin (Some (posts_at 2 10)))
            (Postgrest.serving sample "2024-06-01T00:00:00.000Z"))
  = [[(Some 10, Some 19)]].
Proof.
  exact (proj1 (proj2 (pagination_row_range
                         (Postgrest.serving sample "2024-06-01T00:00:00.000Z")
                         2 10 ltac:(lia) ltac:(lia)
                         ltac:(unfold MAX_SAFE_INTEGER; lia)))).
Defined.




(** C7.  Each list operation called without an argument runs exactly as
    it does on [{page: 1, limit: 10}]: the same events, the same
    completion, whatever the client. *)
Theorem default_parameters (env : Env) :
  run (getUsersForAdmin None) env = run (getUsersForAdmin (Some (users_at 1 10))) env
  /\ run (getPostsForAdmin None) env = run (getPostsForAdmin (Some (posts_at 1 10))) env
  /\ run (getReportsForAdmin None) env
     = run (getReportsForAdmin (Some (reports_at 1 10))) env.
Proof. repeat split; reflexivity. Qed.
(* ================================================================== *)
(** ** Shaping the result *)

Lemma sent_one {q q' : Query} : [q] = [q'] -> q = q'.
Proof. intros E; injection E; auto. Qed.

(** C8.  On a successful call of a list operation the returned count is
    0 if the database reported a null count and the database's count
    otherwise. *)
Theorem count_defaults_to_zero (env : Env) :
  (forall p res,
      outcome (getUsersForAdmin p) env = Normal res ->
      exists q, sent (getUsersForAdmin p) env = [q]
                /\ UsersPage.count res
                   = match count (client env q) with Some n => n | None => 0 end)
  /\ (forall p res,
         outcome (getPostsForAdmin p) env = Normal res ->
         exists q, sent (getPostsForAdmin p) env = [q]
                   /\ PostsPage.count res
                      = match count (client env q) with Some n => n | None => 0 end)
  /\ (forall p res,
         outcome (getReportsForAdmin p) env = Normal res ->
         exists q, sent (getReportsForAdmin p) env = [q]
                   /\ ReportsPage.count res
                      = match count (client env q) with Some n => n | None => 0 end).
Proof.
  repeat split; intros p res.
  - rewrite users_arg, users_outcome, users_sent. cbv zeta.
    destruct (error _); [discriminate |]. intros E; injection E as <-.
    eexists; split; reflexivity.
  - rewrite posts_arg, posts_outcome, posts_sent. cbv zeta.
    destruct (error _); [discriminate |]. intros E; injection E as <-.
    eexists; split; reflexivity.
  - rewrite reports_arg, reports_outcome, reports_sent. cbv zeta.
    destruct (error _); [discriminate |]. intros E; injection E as <-.
    eexists; split; reflexivity.
Qed.

(** A null count comes back as 0. *)
Lemma null_count_example :
  let env := answering {| data := Some [bob]; error := None; count := None |} in
  let res := {| UsersPage.users := Some [bob]; UsersPage.count := 0 |} in
  exists q, sent (getUsersForAdmin None) env = [q]
            /\ UsersPage.count res
               = match count (client env q) with Some n => n | None => 0 end.
Proof.
  exact (proj1 (count_defaults_to_zero
                  (answering {| data := Some [bob]; error := None; count := None |}))
               None
               {| UsersPage.users := Some [bob]; UsersPage.count := 0 |}
               eq_refl).
Defined.

(** C9.  Each list operation sends one query.  When the database
    answers it without an error and with a null row set,
    [getPostsForAdmin] returns the empty list of posts, while
    [getUsersForAdmin] and [getReportsForAdmin] return the null row set
    as it is. *)
Theorem null_rows (env : Env) :
  (forall p,
      exists q, sent (getPostsForAdmin p) env = [q]
                /\ (error (client env q) = None -> data (client env q) = None ->
                    exists res, outcome (getPostsForAdmin p) env = Normal res
                                /\ PostsPage.posts res = []))
  /\ (forall p,
         exists q, sent (getUsersForAdmin p) env = [q]
                   /\ (error (client env q) = None -> data (client env q) = None ->
                       exists res, outcome (getUsersForAdmin p) env = Normal res
                                   /\ UsersPage.users res = None))
  /\ (forall p,
         exists q, sent (getReportsForAdmin p) env = [q]
                   /\ (error (client env q) = None -> data (client env q) = None ->
                       exists res, outcome (getReportsForAdmin p) env = Normal res
                                   /\ ReportsPage.reports res = None)).
Proof.
  split; [| split]; intros p.
  - rewrite posts_arg, posts_outcome, posts_sent. cbv zeta.
    eexists; split; [reflexivity |]. intros -> E.
    eexists; split; [reflexivity |].
    cbn [PostsPage.posts UsersPage.users ReportsPage.reports].
    rewrite E. reflexivity.
  - rewrite users_arg, users_outcome, users_sent. cbv zeta.
    eexists; split; [reflexivity |]. intros -> E.
    eexists; split; [reflexivity |].
    cbn [PostsPage.posts UsersPage.users ReportsPage.reports].
    rewrite E. reflexivity.
  - rewrite reports_arg, reports_outcome, reports_sent. cbv zeta.
    eexists; split; [reflexivity |]. intros -> E.
    eexists; split; [reflexivity |].
    cbn [PostsPage.posts UsersPage.users ReportsPage.reports].
    rewrite E. reflexivity.
Qed.

(** A null row set is an empty list of posts, and stays null for users
    and reports. *)
Lemma null_rows_example :
  let env := answering {| data := None; error := None; count := None |} in
  (exists res, outcome (getPostsForAdmin None) env = Normal res
               /\ PostsPage.posts res = [])
  /\ (exists res, outcome (getUsersForAdmin None) env = Normal res
                  /\ UsersPage.users res = None)
  /\ (exists res, outcome (getReportsForAdmin None) env = Normal res
                  /\ ReportsPage.reports res = None).
Proof.
  destruct (null_rows (answering {| data := None; error := None; count := None |}))
    as (P & U & R).
  destruct (P None) as (qp & _ & Hp).
  destruct (U None) as (qu & _ & Hu).
  destruct (R None) as (qr & _ & Hr).
  split; [| split].
  - exact (Hp eq_refl eq_refl).
  - exact (Hu eq_refl eq_refl).
  - exact (Hr eq_refl eq_refl).
Defined.

(* ================================================================== *)
(** ** Errors *)

(** C5.  Each operation that calls the database sends one request, and
    when the database answers it with an error the operation throws: the
    read operations a [QueryFailure], the report update an
    [UpdateFailure], each with the database's message at the end of its
    own; nothing is returned.  [updatePostStatusForAdmin] sends no
    request at all. *)
Theorem database_errors_are_raised (env : Env) :
  (forall p,
      exists q, sent (getUsersForAdmin p) env = [q]
                /\ forall e, error (client env q) = Some e ->
                     let thrown := Error ("Failed to fetch users: " ++ message e) in
                     outcome (getUsersForAdmin p) env = Thrown thrown
                     /\ kind_of thrown = Some QueryFailure)
  /\ (forall p,
         exists q, sent (getPostsForAdmin p) env = [q]
                   /\ forall e, error (client env q) = Some e ->
                        let thrown := Error ("Failed to fetch posts: " ++ message e) in
                        outcome (getPostsForAdmin p) env = Thrown thrown
                        /\ kind_of thrown = Some QueryFailure)
  /\ (forall p,
         exists q, sent (getReportsForAdmin p) env = [q]
                   /\ forall e, error (client env q) = Some e ->
                        let thrown :=
                          Error ("Failed to fetch reports: " ++ message e) in
                        outcome (getReportsForAdmin p) env = Thrown thrown
                        /\ kind_of thrown = Some QueryFailure)
  /\ (forall reportId status adminId,
         exists q,
           sent (updateReportStatusForAdmin reportId status adminId) env = [q]
           /\ forall e, error (client env q) = Some e ->
                let thrown :=
                  Error ("Failed to update report status: " ++ message e) in
                outcome (updateReportStatusForAdmin reportId status adminId) env
                = Thrown thrown
                /\ kind_of thrown = Some UpdateFailure)
  /\ (forall postId status,
         sent (updatePostStatusForAdmin postId status) env = []).
Proof.
  split; [| split; [| split; [| split]]].
  - intros p. rewrite users_arg, users_outcome, users_sent. cbv zeta.
    eexists; split; [reflexivity |]. intros e ->. split; reflexivity.
  - intros p. rewrite posts_arg, posts_outcome, posts_sent. cbv zeta.
    eexists; split; [reflexivity |]. intros e ->. split; reflexivity.
  - intros p. rewrite reports_arg, reports_outcome, reports_sent. cbv zeta.
    eexists; split; [reflexivity |]. intros e ->. split; reflexivity.
  - intros reportId status adminId.
    rewrite report_update_outcome, report_update_sent. cbv zeta.
    eexists; split; [reflexivity |]. intros e ->. split; reflexivity.
  - reflexivity.
Qed.

(** A refused connection fails every operation that calls the
    database. *)
Lemma refused_connection_example :
  let env := answering {| data := None; error := Some broken; count := None |} in
  outcome (getUsersForAdmin None) env
  = Thrown (Error "Failed to fetch users: connection refused")
  /\ outcome (getPostsForAdmin None) env
     = Thrown (Error "Failed to fetch posts: connection refused")
  /\ outcome (getReportsForAdmin None) env
     = Thrown (Error "Failed to fetch reports: connection refused")
  /\ outcome (updateReportStatusForAdmin "r1" "resolved" "admin-7") env
     = Thrown (Error "Failed to update report status: connection refused").
Proof.
  destruct (database_errors_are_raised
              (answering {| data := None; error := Some broken; count := None |}))
    as (U & P & R & W & _).
  destruct (U None) as (qu & _ & Hu).
  destruct (P None) as (qp & _ & Hp).
  destruct (R None) as (qr & _ & Hr).
  destruct (W "r1" "resolved" "admin-7") as (qw & _ & Hw).
  split; [| split; [| split]].
  - exact (proj1 (Hu broken eq_refl)).
  - exact (proj1 (Hp broken eq_refl)).
  - exact (proj1 (Hr broken eq_refl)).
  - exact (proj1 (Hw broken eq_refl)).
Defined.

(* ================================================================== *)
(** ** The two updates *)

(** C3.  [updatePostStatusForAdmin] sends nothing to the database and
    returns [{success: true}], whatever its arguments. *)
Theorem post_status_update_is_a_stub (env : Env) (postId status : string) :
  sent (updatePostStatusForAdmin postId status) env = []
  /\ outcome (updatePostStatusForAdmin postId status) env
     = Normal {| success := true |}.
Proof. split; reflexivity. Qed.

Section Rows.

Import Postgrest.

Lemma column_set_same c v r : column c (set_column c v r) = v.
Proof.
  induction r as [| [k x] r IH]; cbn.
  - rewrite String.eqb_refl. reflexivity.
  - destruct (k =? c) eqn:E; cbn; rewrite E; auto.
Qed.

Lemma column_set_other c c' v r :
  c <> c' -> column c (set_column c' v r) = column c r.
Proof.
  intros N. induction r as [| [k x] r IH]; cbn.
  - destruct (c' =? c) eqn:E; [| reflexivity].
    apply String.eqb_eq in E. congruence.
  - destruct (k =? c') eqn:E; cbn.
    + apply String.eqb_eq in E. subst k.
      destruct (c' =? c) eqn:E'; [| reflexivity].
      apply String.eqb_eq in E'. congruence.
    + rewrite IH. reflexivity.
Qed.

Lemma lookup_replace t rows rows' ts :
  lookup t ts = Some rows -> lookup t (replace t rows' ts) = Some rows'.
Proof.
  induction ts as [| [k old] ts IH]; cbn; [discriminate |].
  destruct (k =? t) eqn:E; cbn; rewrite E; auto.
Qed.

Lemma relation_store t rows rows' db :
  relation t db = Some rows -> relation t (store t rows' db) = Some rows'.
Proof. apply lookup_replace. Qed.

Lemma includes_terminal status :
  includes ["resolved"; "dismissed"] status = true
  <-> status = "resolved" \/ status = "dismissed".
Proof.
  unfold includes. cbn [existsb].
  rewrite !orb_true_iff, !String.eqb_eq. intuition discriminate.
Qed.

End Rows.

(** C1.  [updateReportStatusForAdmin] sends one request, to the reports
    table: an update with the given status, with [resolver_admin_id] set
    to the admin, and with [resolved_at] set to the current time if the
    status is [resolved] or [dismissed] and to null otherwise, filtered
    by equality of [id] with the report's id and by nothing else.  In
    the database the rows with that id get the three values and every
    other row stays as it is. *)
Theorem report_status_update (env : Env) (reportId status adminId : string) :
  let terminal := status = "resolved" \/ status = "dismissed" in
  exists resolved_at q,
    sent (updateReportStatusForAdmin reportId status adminId) env = [q]
    /\ table q = "reports"
    /\ calls q = [CUpdate [("status", Some status);
                           ("resolver_admin_id", Some adminId);
                           ("resolved_at", resolved_at)];
                  CEq "id" reportId]
    /\ (terminal -> resolved_at = Some (clock env))
    /\ (~ terminal -> resolved_at = None)
    /\ (exists w, Postgrest.where_ (calls q) = Some w
                  /\ forall r, w r = true
                               <-> Postgrest.column "id" r = Some reportId)
    /\ (forall db rows,
           Postgrest.relation "reports" db = Some rows ->
           exists change,
             Postgrest.relation "reports" (fst (Postgrest.exec db q))
             = Some (map change rows)
             /\ forall r,
                 (Postgrest.column "id" r <> Some reportId -> change r = r)
                 /\ (Postgrest.column "id" r = Some reportId ->
                     Postgrest.column "status" (change r) = Some status
                     /\ Postgrest.column "resolver_admin_id" (change r)
                        = Some adminId
                     /\ Postgrest.column "resolved_at" (change r)
                        = resolved_at)).
Proof.
  intros terminal.
  exists (if includes ["resolved"; "dismissed"] status
          then Some (clock env) else None).
  exists (report_update_query reportId status adminId (clock env)).
  assert (W : forall r,
             (match Postgrest.column "id" r with
              | Some x => x =? reportId
              | None => false
              end && true) = true
             <-> Postgrest.column "id" r = Some reportId).
  { intros r. rewrite andb_true_r. destruct (Postgrest.column "id" r) as [x |].
    - rewrite String.eqb_eq. split; congruence.
    - split; discriminate. }
  split; [apply report_update_sent |].
  split; [reflexivity |]. split; [reflexivity |].
  split.
  { intros T. apply includes_terminal in T. rewrite T. reflexivity. }
  split.
  { intros T. destruct (includes _ status) eqn:E; [| reflexivity].
    apply includes_terminal in E. contradiction. }
  split.
  { eexists. split; [reflexivity |]. exact W. }
  intros db rows R. unfold Postgrest.exec.
  cbn [table calls report_update_query]. rewrite R.
  cbn [Postgrest.where_ Postgrest.updating option_map Postgrest.holds fst
       Postgrest.joins Postgrest.selected flat_map map Postgrest.sequence].
  eexists. split; [apply (relation_store _ _ _ _ R) |].
  intros r. cbv beta. split.
  - intros N. destruct (_ && true) eqn:E; [| reflexivity].
    apply W in E. contradiction.
  - intros I. apply W in I. rewrite I.
    unfold Postgrest.patch, update_values. cbn [fold_left fst snd].
    repeat split.
    + rewrite !column_set_other by discriminate. apply column_set_same.
    + rewrite column_set_other by discriminate. apply column_set_same.
    + apply column_set_same.
Qed.

(** Resolving report [r1] of the sample stamps it with the time of the
    call. *)
Lemma resolve_r1_example :
  let env := Postgrest.serving sample "2024-06-01T00:00:00.000Z" in
  exists q,
    sent (updateReportStatusForAdmin "r1" "resolved" "admin-7") env = [q]
    /\ calls q = [CUpdate [("status", Some "resolved");
                           ("resolver_admin_id", Some "admin-7");
                           ("resolved_at", Some "2024-06-01T00:00:00.000Z")];
                  CEq "id" "r1"].
Proof.
  destruct (report_status_update
              (Postgrest.serving sample "2024-06-01T00:00:00.000Z")
              "r1" "resolved" "admin-7")
    as (stamp & q & S & _ & C & T & _).
  exists q. split; [exact S |].
  rewrite C, (T (or_introl eq_refl)). reflexivity.
Defined.

(* ================================================================== *)
(** ** Patterns and filter lists *)

Section Patterns.

Import Postgrest.
Local Open Scope char_scope.
Local Open Scope list_scope.

Lemma chars_app (a b : string) : chars (a ++ b)%string = chars a ++ chars b.
Proof. induction a as [| c a IH]; cbn; [| rewrite IH]; reflexivity. Qed.

Lemma like_percent (q s : list ascii) :
  like ("%" :: q) s
  = like q s || match s with [] => false | _ :: s' => like ("%" :: q) s' end.
Proof. destruct s; reflexivity. Qed.

Lemma like_ordinary (c : ascii) (q s : list ascii) :
  ordinary c = true ->
  like (c :: q) s
  = match s with [] => false | x :: s' => (x =? c) && like q s' end.
Proof.
  unfold ordinary. rewrite negb_true_iff, !orb_false_iff.
  intros [[E1 E2] E3]. cbn [like]. rewrite E1, E2, E3. reflexivity.
Qed.

Lemma like_any (s : list ascii) : like ["%"] s = true.
Proof.
  induction s as [| x s IH]; rewrite like_percent; [reflexivity |].
  rewrite IH. apply orb_true_r.
Qed.

Lemma like_prefix (p s : list ascii) :
  forallb ordinary p = true -> like (p ++ ["%"]) s = prefixb p s.
Proof.
  revert s. induction p as [| c p IH]; intros s H.
  - cbn [app]. rewrite like_any. destruct s; reflexivity.
  - cbn [forallb] in H. apply andb_true_iff in H as [Hc Hp].
    cbn [app]. rewrite like_ordinary by exact Hc.
    destruct s as [| x s]; [reflexivity |]. cbn [prefixb].
    rewrite IH by exact Hp. reflexivity.
Qed.

Lemma like_infix (p s : list ascii) :
  forallb ordinary p = true -> like ("%" :: p ++ ["%"]) s = infixb p s.
Proof.
  intros H. induction s as [| x s IH]; rewrite like_percent, like_prefix by exact H.
  - cbn. rewrite orb_false_r. reflexivity.
  - rewrite IH. reflexivity.
Qed.

Lemma special_wildcard (c : ascii) : special c = false -> wildcard c = c.
Proof.
  unfold special, wildcard. rewrite !orb_false_iff.
  intros [[[[_ _] E] _] _]. rewrite E. reflexivity.
Qed.

Lemma special_lower (c : ascii) : special c = false -> ordinary (lower c) = true.
Proof.
  destruct c as [[] [] [] [] [] [] [] []]; vm_compute; congruence.
Qed.

Lemma plain_wildcard (s : list ascii) :
  forallb (fun c => negb (special c)) s = true -> map wildcard s = s.
Proof.
  induction s as [| c s IH]; cbn; [reflexivity |].
  rewrite andb_true_iff, negb_true_iff. intros [Hc Hs].
  rewrite special_wildcard, IH; auto.
Qed.

Lemma plain_lower (s : list ascii) :
  forallb (fun c => negb (special c)) s = true ->
  forallb ordinary (map lower s) = true.
Proof.
  induction s as [| c s IH]; cbn; [reflexivity |].
  rewrite !andb_true_iff, negb_true_iff. intros [Hc Hs].
  split; [apply special_lower |]; auto.
Qed.

(** On a plain search term the pattern [%term%] is containment of the
    term, whatever the case. *)
Lemma ilike_includes (s v : string) :
  plain s = true ->
  ilike ("%" :: chars s ++ ["%"]) (chars v) = includes_ci s v.
Proof.
  intros H. unfold ilike, includes_ci.
  cbn [map]. rewrite !map_app. cbn [map].
  rewrite (plain_wildcard _ H).
  change (lower (wildcard "%")) with "%".
  apply like_infix, plain_lower, H.
Qed.

Lemma split_on_none (sep : ascii) (a : list ascii) :
  forallb (fun c => negb (c =? sep)) a = true -> split_on sep a = [a].
Proof.
  induction a as [| c a IH]; cbn; [reflexivity |].
  rewrite andb_true_iff, negb_true_iff. intros [Hc Ha].
  rewrite Hc, IH by exact Ha. reflexivity.
Qed.

Lemma split_on_first (sep : ascii) (a b : list ascii) :
  forallb (fun c => negb (c =? sep)) a = true ->
  split_on sep (a ++ sep :: b) = a :: split_on sep b.
Proof.
  induction a as [| c a IH]; cbn.
  - rewrite Ascii.eqb_refl. reflexivity.
  - rewrite andb_true_iff, negb_true_iff. intros [Hc Ha].
    rewrite Hc, IH by exact Ha. reflexivity.
Qed.

Lemma plain_no_comma (s : list ascii) :
  forallb (fun c => negb (special c)) s = true ->
  forallb (fun c => negb (c =? ",")) s = true.
Proof.
  induction s as [| c s IH]; cbn; [reflexivity |].
  rewrite !andb_true_iff, !negb_true_iff. intros [Hc Hs].
  split; [| auto]. unfold special in Hc.
  rewrite !orb_false_iff in Hc. apply Hc.
Qed.

(** The filter list the search term is put in, read back: two
    conditions if the term has no comma and no parenthesis, a syntax
    error if it has a parenthesis. *)
Lemma parse_search_filter (s : string) :
  forallb (fun c => negb (c =? ",")) (chars s) = true ->
  parse_or ("nickname.ilike.%" ++ s ++ "%,email.ilike.%" ++ s ++ "%")
  = if existsb paren (chars s) then None
    else Some [Ilike "nickname" ("%" :: chars s ++ ["%"]);
               Ilike "email" ("%" :: chars s ++ ["%"])].
Proof.
  intros H. unfold parse_or. rewrite !chars_app.
  rewrite !existsb_app.
  change (existsb paren (chars "nickname.ilike.%")) with false.
  change (existsb paren (chars "%,email.ilike.%")) with false.
  change (existsb paren (chars "%")) with false.
  rewrite !orb_false_l, orb_false_r, orb_diag.
  destruct (existsb paren (chars s)); [reflexivity |].
  replace (chars "nickname.ilike.%" ++ chars s
           ++ chars "%,email.ilike.%" ++ chars s ++ chars "%")
    with ((chars "nickname.ilike.%" ++ chars s ++ ["%"])
          ++ "," :: (chars "email.ilike.%" ++ chars s ++ ["%"]))
    by (rewrite <- !app_assoc; reflexivity).
  rewrite split_on_first, split_on_none.
  - reflexivity.
  - rewrite !forallb_app, H. reflexivity.
  - rewrite !forallb_app, H. reflexivity.
Qed.



End Patterns.

(* ================================================================== *)
(** ** What the database makes of the list queries *)

Section Answers.

Import Postgrest.
Local Open Scope list_scope.

Lemma users_shape p :
  let cs := calls (users_query p) in
  updating cs = None
  /\ counting cs = true
  /\ ordering cs = [("created_at"%string, false)]
  /\ window cs
     = Some (page_range (GetUsersParams.page p) (GetUsersParams.limit p)).
Proof. cbv zeta. repeat split; by_filters. Qed.

Lemma reports_shape p :
  let cs := calls (reports_query p) in
  updating cs = None
  /\ counting cs = true
  /\ ordering cs = [("created_at"%string, false)]
  /\ window cs
     = Some (page_range (GetReportsParams.page p) (GetReportsParams.limit p)).
Proof. cbv zeta. repeat split; by_filters. Qed.

Lemma posts_shape_full p :
  let cs := calls (posts_query p) in
  where_ cs = Some (fun _ => true)
  /\ updating cs = None
  /\ counting cs = true
  /\ ordering cs = [("created_at"%string, false)]
  /\ window cs
     = Some (page_range (GetAdminPostsParams.page p)
                        (GetAdminPostsParams.limit p)).
Proof.
  cbv zeta. unfold posts_query. destruct (page_range _ _) as [lo hi].
  repeat split.
Qed.

Lemma users_call_order p :
  let cs := calls (users_query p) in
  applied_before is_range is_sort cs = true
  /\ applied_before is_sort is_range cs = false.
Proof. cbv zeta. split; by_filters. Qed.

Lemma reports_call_order p :
  let cs := calls (reports_query p) in
  applied_before is_range is_sort cs = true
  /\ applied_before is_sort is_range cs = false.
Proof. cbv zeta. split; by_filters. Qed.

Lemma posts_call_order p :
  let cs := calls (posts_query p) in
  applied_before is_sort is_range cs = true
  /\ applied_before is_range is_sort cs = false.
Proof.
  cbv zeta. unfold posts_query. destruct (page_range _ _) as [lo hi].
  split; reflexivity.
Qed.

(** The user and the report listing require no relation; the post
    listing requires the owner. *)
Lemma users_joins db p : joins db "users" (calls (users_query p)) = Some [].
Proof. unfold joins. by_filters. Qed.

Lemma reports_joins db p : joins db "reports" (calls (reports_query p)) = Some [].
Proof. unfold joins. by_filters. Qed.

Lemma posts_joins db p :
  joins db "posts" (calls (posts_query p))
  = option_map (fun j => [j]) (resolves db "posts" "users").
Proof.
  unfold joins, posts_query. destruct (page_range _ _) as [lo hi].
  cbn [calls selected flat_map].
  change (inner_relations posts_columns) with ["users"%string].
  cbn [app map sequence]. destruct (resolves db "posts" "users"); reflexivity.
Qed.

Lemma users_table p : table (users_query p) = "users"%string.
Proof. unfold users_query. destruct (page_range _ _). reflexivity. Qed.

Lemma reports_table p : table (reports_query p) = "reports"%string.
Proof. unfold reports_query. destruct (page_range _ _). reflexivity. Qed.

Lemma posts_table p : table (posts_query p) = "posts"%string.
Proof. unfold posts_query. destruct (page_range _ _). reflexivity. Qed.

Lemma exec_users db p rows :
  relation "users" db = Some rows ->
  snd (exec db (users_query p))
  = match where_ (calls (users_query p)) with
    | Some w =>
        listing_at [("created_at"%string, false)] w
                   (page_range (GetUsersParams.page p) (GetUsersParams.limit p))
                   rows
    | None => failure "failed to parse logic tree"
    end.
Proof.
  intros R. destruct (users_shape p) as (U & C & O & W).
  unfold exec, listing_at, listing.
  rewrite users_table, R, users_joins, U, C, O, W.
  destruct (where_ _) as [w |]; [| reflexivity]. cbn [joined].
  destruct (bounds _) as [[lo hi] |]; [| reflexivity].
  destruct (_ || _); reflexivity.
Qed.

Lemma exec_reports db p rows :
  relation "reports" db = Some rows ->
  snd (exec db (reports_query p))
  = match where_ (calls (reports_query p)) with
    | Some w =>
        listing_at [("created_at"%string, false)] w
                   (page_range (GetReportsParams.page p)
                               (GetReportsParams.limit p))
                   rows
    | None => failure "failed to parse logic tree"
    end.
Proof.
  intros R. destruct (reports_shape p) as (U & C & O & W).
  unfold exec, listing_at, listing.
  rewrite reports_table, R, reports_joins, U, C, O, W.
  destruct (where_ _) as [w |]; [| reflexivity]. cbn [joined].
  destruct (bounds _) as [[lo hi] |]; [| reflexivity].
  destruct (_ || _); reflexivity.
Qed.

Lemma filter_true (rows : list Row) : filter (fun _ => true) rows = rows.
Proof. induction rows as [| r l IH]; cbn; [| rewrite IH]; reflexivity. Qed.

(** The listing of posts: the posts whose owner can be resolved. *)
Lemma exec_posts db p all :
  relation "posts" db = Some all ->
  snd (exec db (posts_query p))
  = match resolves db "posts" "users" with
    | Some j =>
        listing_at [("created_at"%string, false)] j
                   (page_range (GetAdminPostsParams.page p)
                               (GetAdminPostsParams.limit p))
                   all
    | None => failure "could not find a relationship"
    end.
Proof.
  intros R. destruct (posts_shape_full p) as (F & U & C & O & W).
  unfold exec, listing_at, listing.
  rewrite posts_table, R, posts_joins, F, U, C, O, W.
  destruct (resolves db "posts" "users") as [j |]; [| reflexivity].
  cbn [option_map joined]. rewrite filter_true.
  destruct (bounds _) as [[lo hi] |]; [| reflexivity].
  destruct (_ || _); reflexivity.
Qed.

Lemma exec_no_relation db q :
  relation (table q) db = None ->
  snd (exec db q) = failure "relation does not exist".
Proof. intros R. unfold exec. rewrite R. reflexivity. Qed.

Lemma In_insert keys u r rows : In u (insert keys r rows) -> u = r \/ In u rows.
Proof.
  induction rows as [| r' rows IH]; cbn.
  - intuition.
  - destruct (in_order keys r r'); cbn; intuition.
Qed.

Lemma In_sort keys u rows : In u (sort keys rows) -> In u rows.
Proof.
  induction rows as [| r rows IH]; cbn; [auto |].
  intros H. apply In_insert in H. intuition.
Qed.

Lemma In_drop n u rows : In u (drop n rows) -> In u rows.
Proof.
  revert n. induction rows as [| r rows IH]; intros n; cbn [drop]; [auto |].
  destruct (n <=? 0)%Z; [auto |]. intros H. right. exact (IH _ H).
Qed.

Lemma In_take n u rows : In u (take n rows) -> In u rows.
Proof.
  revert n. induction rows as [| r rows IH]; intros n; cbn [take]; [auto |].
  destruct (n <=? 0)%Z; cbn [In]; [contradiction |].
  intros [H | H]; [left; exact H | right; exact (IH _ H)].
Qed.

Lemma In_slice a b u rows : In u (slice a b rows) -> In u rows.
Proof. unfold slice. intros H. apply In_take, In_drop in H. exact H. Qed.

Lemma listing_rows keys w range rows answer u :
  data (listing keys w range rows) = Some answer -> In u answer ->
  In u rows /\ w u = true.
Proof.
  unfold listing. destruct range as [a b].
  destruct (_ || _); cbn; [discriminate |].
  intros E; injection E as <-. intros H.
  apply In_slice, In_sort, filter_In in H. exact H.
Qed.

Lemma listing_ok keys w range all :
  error (listing keys w range all) = None ->
  (0 <= fst range)%Z /\ (0 <= snd range - fst range + 1)%Z
  /\ data (listing keys w range all)
     = Some (slice (fst range) (snd range) (sort keys (filter w all)))
  /\ count (listing keys w range all)
     = Some (Z.of_nat (List.length (filter w all))).
Proof.
  unfold listing. destruct range as [lo hi]. cbn [fst snd].
  destruct ((lo <? 0)%Z || (hi - lo + 1 <? 0)%Z) eqn:E; cbn; [discriminate |].
  apply orb_false_iff in E as [E1 E2].
  apply Z.ltb_ge in E1. apply Z.ltb_ge in E2. auto.
Qed.

(** A listing that is answered without an error: its range is one of
    row numbers, it starts at no negative row, and the answer is the
    slice of the sorted matching rows, with their count. *)
Lemma listing_at_ok keys w range all :
  error (listing_at keys w range all) = None ->
  exists lo hi,
    bounds range = Some (lo, hi)
    /\ (0 <= lo)%Z /\ (0 <= hi - lo + 1)%Z
    /\ data (listing_at keys w range all)
       = Some (slice lo hi (sort keys (filter w all)))
    /\ count (listing_at keys w range all)
       = Some (Z.of_nat (List.length (filter w all))).
Proof.
  unfold listing_at. destruct (bounds range) as [[lo hi] |]; [| discriminate].
  intros E. apply listing_ok in E. exists lo, hi. cbn [fst snd] in E.
  intuition.
Qed.

(** The other way round: a well-formed range is answered. *)
Lemma listing_at_answer keys w range all lo hi :
  bounds range = Some (lo, hi) -> (0 <= lo)%Z -> (0 <= hi - lo + 1)%Z ->
  listing_at keys w range all
  = {| data := Some (slice lo hi (sort keys (filter w all)));
       error := None;
       count := Some (Z.of_nat (List.length (filter w all))) |}.
Proof.
  intros B L H. unfold listing_at, listing. rewrite B.
  destruct (lo <? 0)%Z eqn:E1; [apply Z.ltb_lt in E1; lia |].
  destruct (hi - lo + 1 <? 0)%Z eqn:E2; [apply Z.ltb_lt in E2; lia |].
  reflexivity.
Qed.

End Answers.

(* ================================================================== *)
(** ** Listings against the database *)

Section Listings.

Import Postgrest.
Local Open Scope list_scope.

Ltac open_listing :=
  match goal with
  | |- context [listing_at ?k ?w ?r ?a] =>
      let OK := fresh "OK" in
      let d := fresh "d" in
      let e := fresh "e" in
      let c := fresh "c" in
      generalize (listing_at_ok k w r a);
      destruct (listing_at k w r a) as [d e c];
      cbn [error data count]; intros OK;
      destruct e; [discriminate |];
      destruct (OK eq_refl) as (lo & hi & ? & ? & ? & -> & ->)
  end.

(** A successful listing of users, rows and count. *)
Lemma users_answer db now p res :
  outcome (getUsersForAdmin (Some p)) (serving db now) = Normal res ->
  exists all w lo hi,
    relation "users" db = Some all
    /\ where_ (calls (users_query p)) = Some w
    /\ bounds (page_range (GetUsersParams.page p) (GetUsersParams.limit p))
       = Some (lo, hi)
    /\ (0 <= lo)%Z /\ (0 <= hi - lo + 1)%Z
    /\ UsersPage.users res
       = Some (slice lo hi (sort [("created_at"%string, false)] (filter w all)))
    /\ UsersPage.count res = Z.of_nat (List.length (filter w all)).
Proof.
  rewrite users_outcome. cbv zeta. cbn [client serving].
  destruct (relation "users" db) as [all |] eqn:R.
  - rewrite (exec_users _ _ _ R).
    destruct (where_ _) as [w |]; [| discriminate].
    open_listing. intros X; injection X as <-. exists all, w, lo, hi.
    cbn [UsersPage.users UsersPage.count default]. auto 10.
  - rewrite exec_no_relation by (rewrite users_table; exact R). discriminate.
Qed.

Lemma reports_answer db now p res :
  outcome (getReportsForAdmin (Some p)) (serving db now) = Normal res ->
  exists all w lo hi,
    relation "reports" db = Some all
    /\ where_ (calls (reports_query p)) = Some w
    /\ bounds (page_range (GetReportsParams.page p) (GetReportsParams.limit p))
       = Some (lo, hi)
    /\ (0 <= lo)%Z /\ (0 <= hi - lo + 1)%Z
    /\ ReportsPage.reports res
       = Some (slice lo hi (sort [("created_at"%string, false)] (filter w all)))
    /\ ReportsPage.count res = Z.of_nat (List.length (filter w all)).
Proof.
  rewrite reports_outcome. cbv zeta. cbn [client serving].
  destruct (relation "reports" db) as [all |] eqn:R.
  - rewrite (exec_reports _ _ _ R).
    destruct (where_ _) as [w |]; [| discriminate].
    open_listing. intros X; injection X as <-. exists all, w, lo, hi.
    cbn [ReportsPage.reports ReportsPage.count default]. auto 10.
  - rewrite exec_no_relation by (rewrite reports_table; exact R). discriminate.
Qed.

Lemma resolves_owner db c users :
  reference "posts" "users" (foreign_keys db) = Some c ->
  relation "users" db = Some users ->
  resolves db "posts" "users" = Some (refers c users).
Proof. intros F U. unfold resolves. rewrite F, U. reflexivity. Qed.

Lemma posts_answer db now p res :
  outcome (getPostsForAdmin (Some p)) (serving db now) = Normal res ->
  exists all users c lo hi,
    relation "posts" db = Some all
    /\ relation "users" db = Some users
    /\ reference "posts" "users" (foreign_keys db) = Some c
    /\ bounds (page_range (GetAdminPostsParams.page p)
                          (GetAdminPostsParams.limit p))
       = Some (lo, hi)
    /\ (0 <= lo)%Z /\ (0 <= hi - lo + 1)%Z
    /\ PostsPage.posts res
       = slice lo hi (sort [("created_at"%string, false)] (owned c users all))
    /\ PostsPage.count res = Z.of_nat (List.length (owned c users all)).
Proof.
  rewrite posts_outcome. cbv zeta. cbn [client serving].
  destruct (relation "posts" db) as [all |] eqn:R.
  - rewrite (exec_posts _ _ _ R). unfold resolves.
    destruct (reference "posts" "users" (foreign_keys db)) as [c |] eqn:F;
      [| discriminate].
    destruct (relation "users" db) as [users |] eqn:U; [| discriminate].
    open_listing. intros X; injection X as <-. exists all, users, c, lo, hi.
    cbn [PostsPage.posts PostsPage.count default]. unfold owned. auto 12.
  - rewrite exec_no_relation by (rewrite posts_table; exact R). discriminate.
Qed.

(** The other way round: what a listing returns on a well-formed
    range. *)
Lemma users_returned db now p all w lo hi :
  relation "users" db = Some all ->
  where_ (calls (users_query p)) = Some w ->
  bounds (page_range (GetUsersParams.page p) (GetUsersParams.limit p))
  = Some (lo, hi) ->
  (0 <= lo)%Z -> (0 <= hi - lo + 1)%Z ->
  outcome (getUsersForAdmin (Some p)) (serving db now)
  = Normal {| UsersPage.users :=
                Some (slice lo hi
                            (sort [("created_at"%string, false)] (filter w all)));
              UsersPage.count := Z.of_nat (List.length (filter w all)) |}.
Proof.
  intros R W B L H. rewrite users_outcome. cbv zeta. cbn [client serving].
  rewrite (exec_users _ _ _ R), W, (listing_at_answer _ _ _ _ _ _ B L H).
  reflexivity.
Qed.

Lemma reports_returned db now p all w lo hi :
  relation "reports" db = Some all ->
  where_ (calls (reports_query p)) = Some w ->
  bounds (page_range (GetReportsParams.page p) (GetReportsParams.limit p))
  = Some (lo, hi) ->
  (0 <= lo)%Z -> (0 <= hi - lo + 1)%Z ->
  outcome (getReportsForAdmin (Some p)) (serving db now)
  = Normal {| ReportsPage.reports :=
                Some (slice lo hi
                            (sort [("created_at"%string, false)] (filter w all)));
              ReportsPage.count := Z.of_nat (List.length (filter w all)) |}.
Proof.
  intros R W B L H. rewrite reports_outcome. cbv zeta. cbn [client serving].
  rewrite (exec_reports _ _ _ R), W, (listing_at_answer _ _ _ _ _ _ B L H).
  reflexivity.
Qed.

Lemma posts_returned db now p all users c lo hi :
  relation "posts" db = Some all ->
  relation "users" db = Some users ->
  reference "posts" "users" (foreign_keys db) = Some c ->
  bounds (page_range (GetAdminPostsParams.page p) (GetAdminPostsParams.limit p))
  = Some (lo, hi) ->
  (0 <= lo)%Z -> (0 <= hi - lo + 1)%Z ->
  outcome (getPostsForAdmin (Some p)) (serving db now)
  = Normal {| PostsPage.posts :=
                slice lo hi
                      (sort [("created_at"%string, false)] (owned c users all));
              PostsPage.count := Z.of_nat (List.length (owned c users all)) |}.
Proof.
  intros R U F B L H. rewrite posts_outcome. cbv zeta. cbn [client serving].
  rewrite (exec_posts _ _ _ R), (resolves_owner _ _ _ F U),
    (listing_at_answer _ _ _ _ _ _ B L H).
  reflexivity.
Qed.

End Listings.

(* ================================================================== *)
(** ** Sort and row range *)

(** C6, as it is worded, does not hold: in the query of
    [getUsersForAdmin], and in that of [getReportsForAdmin], no sort
    call comes before the row range call. *)
Lemma sort_call_is_not_first :
  let env := Postgrest.serving sample "2024-06-01T00:00:00.000Z" in
  ~ (forall q, In q (sent (getUsersForAdmin None) env) ->
               applied_before is_sort is_range (calls q) = true)
  /\ ~ (forall q, In q (sent (getReportsForAdmin None) env) ->
                  applied_before is_sort is_range (calls q) = true).
Proof.
  split; intros H; specialize (H _ (or_introl eq_refl));
    vm_compute in H; discriminate.
Qed.

(** C6, amended.  [getUsersForAdmin] and [getReportsForAdmin] each send
    one query, which carries one row range, the computed one, and one
    sort, descending by [created_at]; the range call is made first and
    the sort call second.  Only [getPostsForAdmin] makes the sort call
    first.  Whatever the order of the two calls, the database sorts the
    rows that pass the filters and applies the range to the sorted rows:
    on a range of row numbers that starts at no negative row, the rows
    returned are that slice of the sorted matching rows. *)
Theorem range_call_then_sort_call :
  (forall env p,
      let p' := default GetUsersParams.empty p in
      exists q,
        sent (getUsersForAdmin p) env = [q]
        /\ ranges (calls q)
           = [page_range (GetUsersParams.page p') (GetUsersParams.limit p')]
        /\ Postgrest.ordering (calls q) = [("created_at", false)]
        /\ applied_before is_range is_sort (calls q) = true
        /\ applied_before is_sort is_range (calls q) = false)
  /\ (forall env p,
         let p' := default GetReportsParams.empty p in
         exists q,
           sent (getReportsForAdmin p) env = [q]
           /\ ranges (calls q)
              = [page_range (GetReportsParams.page p') (GetReportsParams.limit p')]
           /\ Postgrest.ordering (calls q) = [("created_at", false)]
           /\ applied_before is_range is_sort (calls q) = true
           /\ applied_before is_sort is_range (calls q) = false)
  /\ (forall env p,
         let p' := default GetAdminPostsParams.empty p in
         exists q,
           sent (getPostsForAdmin p) env = [q]
           /\ ranges (calls q)
              = [page_range (GetAdminPostsParams.page p')
                            (GetAdminPostsParams.limit p')]
           /\ Postgrest.ordering (calls q) = [("created_at", false)]
           /\ applied_before is_sort is_range (calls q) = true
           /\ applied_before is_range is_sort (calls q) = false)
  /\ (forall db now p all w lo hi,
         let p' := default GetUsersParams.empty p in
         Postgrest.relation "users" db = Some all ->
         Postgrest.where_ (calls (users_query p')) = Some w ->
         Postgrest.bounds
           (page_range (GetUsersParams.page p') (GetUsersParams.limit p'))
         = Some (lo, hi) ->
         0 <= lo -> 0 <= hi - lo + 1 ->
         exists res,
           outcome (getUsersForAdmin p) (Postgrest.serving db now) = Normal res
           /\ UsersPage.users res
              = Some (Postgrest.slice lo hi
                        (Postgrest.sort [("created_at", false)] (filter w all))))
  /\ (forall db now p all w lo hi,
         let p' := default GetReportsParams.empty p in
         Postgrest.relation "reports" db = Some all ->
         Postgrest.where_ (calls (reports_query p')) = Some w ->
         Postgrest.bounds
           (page_range (GetReportsParams.page p') (GetReportsParams.limit p'))
         = Some (lo, hi) ->
         0 <= lo -> 0 <= hi - lo + 1 ->
         exists res,
           outcome (getReportsForAdmin p) (Postgrest.serving db now) = Normal res
           /\ ReportsPage.reports res
              = Some (Postgrest.slice lo hi
                        (Postgrest.sort [("created_at", false)] (filter w all)))).
Proof.
  split; [| split; [| split; [| split]]].
  - intros env p p'. exists (users_query p').
    rewrite users_arg, users_sent. fold p'.
    destruct (users_shape p') as (_ & _ & O & _).
    destruct (users_call_order p') as (B & N).
    rewrite users_ranges. auto.
  - intros env p p'. exists (reports_query p').
    rewrite reports_arg, reports_sent. fold p'.
    destruct (reports_shape p') as (_ & _ & O & _).
    destruct (reports_call_order p') as (B & N).
    rewrite reports_ranges. auto.
  - intros env p p'. exists (posts_query p').
    rewrite posts_arg, posts_sent. fold p'.
    destruct (posts_shape_full p') as (_ & _ & _ & O & _).
    destruct (posts_call_order p') as (B & N).
    rewrite posts_ranges. auto.
  - intros db now p all w lo hi p' R W B L H. rewrite users_arg. fold p'.
    rewrite (users_returned _ _ _ _ _ _ _ R W B L H).
    eexists; split; reflexivity.
  - intros db now p all w lo hi p' R W B L H. rewrite reports_arg. fold p'.
    rewrite (reports_returned _ _ _ _ _ _ _ R W B L H).
    eexists; split; reflexivity.
Qed.

(** The plain listing of users on the sample: rows 0 to 9, the range
    call before the sort call, and the three users newest first. *)
Lemma users_call_order_example :
  let env := Postgrest.serving sample "2024-06-01T00:00:00.000Z" in
  (exists q,
      sent (getUsersForAdmin None) env = [q]
      /\ range_values (calls q) = [(Some 0, Some 9)]
      /\ Postgrest.ordering (calls q) = [("created_at", false)]
      /\ applied_before is_range is_sort (calls q) = true
      /\ applied_before is_sort is_range (calls q) = false)
  /\ (exists res,
         outcome (getUsersForAdmin None) env = Normal res
         /\ UsersPage.users res = Some [carl; joanna; bob]).
Proof.
  destruct range_call_then_sort_call as (U & _ & _ & D & _).
  split.
  - destruct (U (Postgrest.serving sample "2024-06-01T00:00:00.000Z") None)
      as (q & S & R & rest).
    exists q. split; [exact S |]. split; [| exact rest].
    unfold range_values. rewrite R. reflexivity.
  - exact (D sample "2024-06-01T00:00:00.000Z" None
             [bob; joanna; carl] (fun _ => true) 0 9
             eq_refl eq_refl eq_refl ltac:(lia) ltac:(lia)).
Defined.

(* ================================================================== *)
(** ** The filters of the user listing *)

Section Filters.

Import Postgrest.
Local Open Scope list_scope.

Lemma holds_search_condition (c s : string) (u : Row) :
  plain s = true ->
  holds (Ilike c ("%"%char :: chars s ++ ["%"%char])) u = field_includes c s u.
Proof.
  intros H. unfold holds, field_includes.
  destruct (column c u); [apply ilike_includes, H | reflexivity].
Qed.

(** On a plain search term, matching the pattern is containing the
    term. *)
Lemma matches_pattern_plain (s : string) (u : Row) :
  plain s = true -> matches_pattern s u = matches_search s u.
Proof.
  intros H. unfold matches_pattern, matches_search.
  change (field_like "nickname" s u)
    with (holds (Ilike "nickname" ("%"%char :: chars s ++ ["%"%char])) u).
  change (field_like "email" s u)
    with (holds (Ilike "email" ("%"%char :: chars s ++ ["%"%char])) u).
  rewrite !holds_search_condition by exact H. reflexivity.
Qed.

(** The filter of the user query on a search term without a comma: a
    syntax error if the term has a parenthesis, else the two pattern
    conditions and each equality filter that was asked for. *)
Lemma users_where_pattern (p : GetUsersParams.t) (s : string) :
  provided (GetUsersParams.search p) = Some s ->
  forallb (fun c => negb (c =? ",")%char) (chars s) = true ->
  match where_ (calls (users_query p)) with
  | Some w =>
      forall u, w u = matches_pattern s u
                      && matches_eq "role" (GetUsersParams.role p) u
                      && matches_eq "tier" (GetUsersParams.tier p) u
  | None => existsb paren (chars s) = true
  end.
Proof.
  intros S H. unfold users_query. destruct (page_range _ _) as [lo hi].
  cbn [calls]. unfold opt_call, matches_eq, search_filter. rewrite S.
  destruct (provided (GetUsersParams.role p)) as [r |];
    destruct (provided (GetUsersParams.tier p)) as [t |];
    cbn [app where_ option_map]; rewrite (parse_search_filter _ H);
    destruct (existsb paren (chars s)); try reflexivity;
    intros u; cbn [existsb holds];
    unfold matches_pattern, field_like;
    rewrite ?orb_false_r, ?andb_true_r, ?andb_assoc; reflexivity.
Qed.

(** The same on a plain search term: the search disjunction. *)
Lemma users_where (p : GetUsersParams.t) (s : string) :
  provided (GetUsersParams.search p) = Some s ->
  plain s = true ->
  match where_ (calls (users_query p)) with
  | Some w =>
      forall u, w u = matches_search s u
                      && matches_eq "role" (GetUsersParams.role p) u
                      && matches_eq "tier" (GetUsersParams.tier p) u
  | None => existsb paren (chars s) = true
  end.
Proof.
  intros S H. pose proof (users_where_pattern p s S (plain_no_comma _ H)) as W.
  destruct (where_ _) as [w |]; [| exact W].
  intros u. rewrite W, (matches_pattern_plain _ _ H). reflexivity.
Qed.



End Filters.




(** The search [ann] finds Joanna by nickname and Carl by email, newest
    first; the count is that of the matching rows. *)
Example search_ann_on_sample :
  outcome (getUsersForAdmin (Some (searching "ann")))
          (Postgrest.serving sample "2024-06-01T00:00:00.000Z")
  = Normal {| UsersPage.users := Some [carl; joanna]; UsersPage.count := 2 |}.
Proof. reflexivity. Qed.

(** A comma in the search term ends the first condition of the filter
    list early; what is left over is no condition, and the request
    fails.  A parenthesis fails it as well. *)
Example search_with_comma_on_sample :
  outcome (getUsersForAdmin (Some (searching "a,b")))
          (Postgrest.serving sample "2024-06-01T00:00:00.000Z")
  = Thrown (Error "Failed to fetch users: failed to parse logic tree").
Proof. reflexivity. Qed.

Example search_with_parenthesis_on_sample :
  outcome (getUsersForAdmin (Some (searching "(ann")))
          (Postgrest.serving sample "2024-06-01T00:00:00.000Z")
  = Thrown (Error "Failed to fetch users: failed to parse logic tree").
Proof. reflexivity. Qed.

(* ================================================================== *)
(** ** Round trips, empty filters and consecutive pages *)

(** X1.  Every function that talks to the database sends exactly one
    request, whatever the client answers: a failed request is not sent
    again. *)
Theorem one_request_per_call (env : Env) :
  (forall p, List.length (sent (getUsersForAdmin p) env) = 1%nat)
  /\ (forall p, List.length (sent (getPostsForAdmin p) env) = 1%nat)
  /\ (forall p, List.length (sent (getReportsForAdmin p) env) = 1%nat)
  /\ (forall reportId status adminId,
         List.length (sent (updateReportStatusForAdmin reportId status adminId) env)
         = 1%nat).
Proof.
  repeat split; intros.
  - rewrite users_arg, users_sent. reflexivity.
  - rewrite posts_arg, posts_sent. reflexivity.
  - rewrite reports_arg, reports_sent. reflexivity.
  - rewrite report_update_sent. reflexivity.
Qed.

Lemma provided_provided (x : option string) : provided (provided x) = provided x.
Proof.
  destruct x as [s |]; [| reflexivity]. cbn.
  destruct (truthy s) eqn:E; cbn; [rewrite E |]; reflexivity.
Qed.

Lemma opt_call_provided (x : option string) (f : string -> Call) :
  opt_call (provided x) f = opt_call x f.
Proof. unfold opt_call. rewrite provided_provided. reflexivity. Qed.

(** X2.  A filter given as the empty string is no filter: the listing of
    users with [search], [role] or [tier] empty, and the listing of
    reports with [status] empty, run exactly as with the field left
    out. *)
Theorem empty_filters_are_ignored (env : Env) :
  (forall p, run (getUsersForAdmin (Some p)) env
             = run (getUsersForAdmin (Some (users_without_empty p))) env)
  /\ (forall p, run (getReportsForAdmin (Some p)) env
                = run (getReportsForAdmin (Some (reports_without_empty p))) env).
Proof.
  split; intros p.
  - rewrite !getUsersForAdmin_run.
    replace (users_query (users_without_empty p)) with (users_query p);
      [reflexivity |].
    unfold users_query, users_without_empty.
    cbn [GetUsersParams.page GetUsersParams.limit GetUsersParams.search
         GetUsersParams.role GetUsersParams.tier].
    rewrite !opt_call_provided. reflexivity.
  - rewrite !getReportsForAdmin_run.
    replace (reports_query (reports_without_empty p)) with (reports_query p);
      [reflexivity |].
    unfold reports_query, reports_without_empty.
    cbn [GetReportsParams.page GetReportsParams.limit GetReportsParams.status].
    rewrite !opt_call_provided. reflexivity.
Qed.

(** X3.  Pages tile the rows: for every list operation and all integers
    [page >= 1] and [limit >= 1] with [(page + 1) * limit] at most
    [Number.MAX_SAFE_INTEGER], the range of a page spans [limit] rows,
    and the range of the next page starts at the row after its end. *)
Theorem consecutive_pages (env : Env) (page limit : Z) :
  1 <= page -> 1 <= limit -> (page + 1) * limit <= MAX_SAFE_INTEGER ->
  exists a b,
    b - a + 1 = limit
    /\ (forall p,
           map (fun q => range_values (calls q))
               (sent (getUsersForAdmin (Some (users_on page limit p))) env)
           = [[(Some a, Some b)]]
           /\ map (fun q => range_values (calls q))
                  (sent (getUsersForAdmin (Some (users_on (page + 1) limit p))) env)
              = [[(Some (b + 1), Some (b + limit))]])
    /\ (map (fun q => range_values (calls q))
            (sent (getPostsForAdmin (Some (posts_at page limit))) env)
        = [[(Some a, Some b)]]
        /\ map (fun q => range_values (calls q))
               (sent (getPostsForAdmin (Some (posts_at (page + 1) limit))) env)
           = [[(Some (b + 1), Some (b + limit))]])
    /\ (forall p,
           map (fun q => range_values (calls q))
               (sent (getReportsForAdmin (Some (reports_on page limit p))) env)
           = [[(Some a, Some b)]]
           /\ map (fun q => range_values (calls q))
                  (sent (getReportsForAdmin (Some (reports_on (page + 1) limit p))) env)
              = [[(Some (b + 1), Some (b + limit))]]).
Proof.
  intros Hp Hl B.
  exists ((page - 1) * limit), ((page - 1) * limit + limit - 1).
  assert (B1 : page * limit <= MAX_SAFE_INTEGER) by nia.
  assert (B2 : page <= MAX_SAFE_INTEGER) by nia.
  assert (B3 : page + 1 <= MAX_SAFE_INTEGER) by nia.
  assert (T : forall x y, x = y -> [x] = [y :> list (option Z * option Z)])
    by (intros x y ->; reflexivity).
  assert (A : map (fun r => (Number.to_Z (fst r), Number.to_Z (snd r)))
                  [page_range (Some (Number.of_Z page)) (Some (Number.of_Z limit))]
              = [(Some ((page - 1) * limit),
                  Some ((page - 1) * limit + limit - 1))]).
  { apply forward_values; auto; lia. }
  assert (N : map (fun r => (Number.to_Z (fst r), Number.to_Z (snd r)))
                  [page_range (Some (Number.of_Z (page + 1)))
                              (Some (Number.of_Z limit))]
              = [(Some ((page - 1) * limit + limit - 1 + 1),
                  Some ((page - 1) * limit + limit - 1 + limit))]).
  { rewrite (forward_values _ _ (page + 1) limit); auto; try lia.
    do 3 f_equal; ring. }
  split; [ring |].
  split; [| split]; [intros p; split | split | intros p; split].
  - rewrite users_sent. cbn [map]. unfold range_values. rewrite users_ranges.
    f_equal. exact A.
  - rewrite users_sent. cbn [map]. unfold range_values. rewrite users_ranges.
    f_equal. exact N.
  - rewrite posts_sent. cbn [map]. unfold range_values. rewrite posts_ranges.
    f_equal. exact A.
  - rewrite posts_sent. cbn [map]. unfold range_values. rewrite posts_ranges.
    f_equal. exact N.
  - rewrite reports_sent. cbn [map]. unfold range_values. rewrite reports_ranges.
    f_equal. exact A.
  - rewrite reports_sent. cbn [map]. unfold range_values. rewrite reports_ranges.
    f_equal. exact N.
Qed.

(** Pages 1 and 2 of size 10 tile the rows. *)
Lemma pages_1_and_2_example :
  exists a b,
    b - a + 1 = 10
    /\ map (fun q => range_values (calls q))
           (sent (getPostsForAdmin (Some (posts_at 1 10)))
                 (Postgrest.serving sample "2024-06-01T00:00:00.000Z"))
       = [[(Some a, Some b)]]
    /\ map (fun q => range_values (calls q))
           (sent (getPostsForAdmin (Some (posts_at (1 + 1) 10)))
                 (Postgrest.serving sample "2024-06-01T00:00:00.000Z"))
       = [[(Some (b + 1), Some (b + 10))]].
Proof.
  destruct (consecutive_pages
              (Postgrest.serving sample "2024-06-01T00:00:00.000Z") 1 10
              ltac:(lia) ltac:(lia) ltac:(unfold MAX_SAFE_INTEGER; lia))
    as (a & b & W & _ & (P1 & P2) & _).
  exists a, b. split; [exact W |]. split; [exact P1 | exact P2].
Defined.

(** X4.  Each function that calls the database sends one request, and
    [console.error] is called exactly when the database answers it with
    an error, once, and with the error object of that answer. *)
Theorem database_errors_are_logged (env : Env) :
  (forall p,
      exists q,
        sent (getUsersForAdmin p) env = [q]
        /\ errors_logged (events (getUsersForAdmin p) env)
           = match error (client env q) with Some e => [e] | None => [] end)
  /\ (forall p,
         exists q,
           sent (getPostsForAdmin p) env = [q]
           /\ errors_logged (events (getPostsForAdmin p) env)
              = match error (client env q) with Some e => [e] | None => [] end)
  /\ (forall p,
         exists q,
           sent (getReportsForAdmin p) env = [q]
           /\ errors_logged (events (getReportsForAdmin p) env)
              = match error (client env q) with Some e => [e] | None => [] end)
  /\ (forall reportId status adminId,
         exists q,
           sent (updateReportStatusForAdmin reportId status adminId) env = [q]
           /\ errors_logged
                (events (updateReportStatusForAdmin reportId status adminId) env)
              = match error (client env q) with Some e => [e] | None => [] end)
  /\ (forall postId status,
         errors_logged (events (updatePostStatusForAdmin postId status) env) = []).
Proof.
  split; [| split; [| split; [| split]]].
  - intros p. rewrite users_arg, users_sent. eexists; split; [reflexivity |].
    unfold events. rewrite getUsersForAdmin_run. cbv zeta.
    destruct (error _); reflexivity.
  - intros p. rewrite posts_arg, posts_sent. eexists; split; [reflexivity |].
    unfold events. rewrite getPostsForAdmin_run. cbv zeta.
    destruct (error _); reflexivity.
  - intros p. rewrite reports_arg, reports_sent. eexists; split; [reflexivity |].
    unfold events. rewrite getReportsForAdmin_run. cbv zeta.
    destruct (error _); reflexivity.
  - intros reportId status adminId. rewrite report_update_sent.
    eexists; split; [reflexivity |].
    unfold events. rewrite updateReportStatusForAdmin_run. cbv zeta.
    destruct (error _); reflexivity.
  - reflexivity.
Qed.

(** A refused connection is logged once by each function that calls the
    database. *)
Lemma refused_connection_is_logged :
  let env := answering {| data := None; error := Some broken; count := None |} in
  errors_logged (events (getUsersForAdmin None) env) = [broken]
  /\ errors_logged (events (getPostsForAdmin None) env) = [broken]
  /\ errors_logged (events (getReportsForAdmin None) env) = [broken]
  /\ errors_logged
       (events (updateReportStatusForAdmin "r1" "resolved" "admin-7") env)
     = [broken].
Proof.
  destruct (database_errors_are_logged
              (answering {| data := None; error := Some broken; count := None |}))
    as (U & P & R & W & _).
  destruct (U None) as (qu & _ & Hu).
  destruct (P None) as (qp & _ & Hp).
  destruct (R None) as (qr & _ & Hr).
  destruct (W "r1" "resolved" "admin-7") as (qw & _ & Hw).
  split; [exact Hu |]. split; [exact Hp |]. split; [exact Hr | exact Hw].
Defined.


Section Pages.

Import Postgrest.
Local Open Scope list_scope.

Lemma users_where_paging p page limit :
  where_ (calls (users_query (users_on page limit p)))
  = where_ (calls (users_query p)).
Proof.
  unfold users_query, users_on.
  cbn [GetUsersParams.page GetUsersParams.limit GetUsersParams.search
       GetUsersParams.role GetUsersParams.tier].
  destruct (page_range (Some (Js.Number.of_Z page)) (Some (Js.Number.of_Z limit)))
    as [lo hi].
  destruct (page_range _ _) as [lo' hi']. cbn [calls]. unfold opt_call.
  destruct (provided (GetUsersParams.search p));
    destruct (provided (GetUsersParams.role p));
    destruct (provided (GetUsersParams.tier p)); reflexivity.
Qed.

Lemma reports_where_paging p page limit :
  where_ (calls (reports_query (reports_on page limit p)))
  = where_ (calls (reports_query p)).
Proof.
  unfold reports_query, reports_on.
  cbn [GetReportsParams.page GetReportsParams.limit GetReportsParams.status].
  destruct (page_range (Some (Js.Number.of_Z page)) (Some (Js.Number.of_Z limit)))
    as [lo hi].
  destruct (page_range _ _) as [lo' hi']. cbn [calls]. unfold opt_call.
  destruct (provided (GetReportsParams.status p)); reflexivity.
Qed.

Lemma length_insert keys r rows :
  List.length (insert keys r rows) = S (List.length rows).
Proof.
  induction rows as [| r' rows IH]; cbn; [reflexivity |].
  destruct (in_order keys r r'); cbn; [| rewrite IH]; reflexivity.
Qed.

Lemma length_sort keys rows : List.length (sort keys rows) = List.length rows.
Proof.
  unfold sort. induction rows as [| r rows IH]; cbn [fold_right]; [reflexivity |].
  rewrite length_insert, IH. reflexivity.
Qed.

Lemma length_drop n rows : (List.length (drop n rows) <= List.length rows)%nat.
Proof.
  revert n. induction rows as [| r rows IH]; intros n; cbn [drop]; [lia |].
  destruct (n <=? 0)%Z; cbn [List.length]; [lia |].
  specialize (IH (n - 1)). lia.
Qed.

Lemma length_take n rows :
  (List.length (take n rows) <= Z.to_nat n)%nat
  /\ (List.length (take n rows) <= List.length rows)%nat.
Proof.
  revert n. induction rows as [| r rows IH]; intros n; cbn [take];
    [cbn; lia |].
  destruct (n <=? 0)%Z eqn:E; cbn [List.length]; [lia |].
  apply Z.leb_gt in E. specialize (IH (n - 1)). lia.
Qed.

Lemma length_slice a b rows :
  (List.length (slice a b rows) <= Z.to_nat (b - a + 1))%nat
  /\ (List.length (slice a b rows) <= List.length rows)%nat.
Proof.
  unfold slice. pose proof (length_take (b - a + 1) (drop a rows)).
  pose proof (length_drop a rows). lia.
Qed.

Lemma page_size_bound a b rows :
  0 <= b - a + 1 ->
  Z.of_nat (List.length (slice a b rows)) <= b - a + 1.
Proof. intros H. pose proof (length_slice a b rows). lia. Qed.

Lemma page_below_count a b keys (l : list Row) :
  Z.of_nat (List.length (slice a b (sort keys l))) <= Z.of_nat (List.length l).
Proof.
  pose proof (length_slice a b (sort keys l)) as H.
  rewrite length_sort in H. lia.
Qed.

(** The row numbers of a page of integers in the safe range. *)
Lemma bounds_forward (page limit : option Js.number) (P L : Z) :
  default (Js.Number.of_Z 1) page = Js.Number.of_Z P ->
  default (Js.Number.of_Z 10) limit = Js.Number.of_Z L ->
  1 <= P -> 1 <= L -> P * L <= MAX_SAFE_INTEGER ->
  bounds (page_range page limit) = Some ((P - 1) * L, (P - 1) * L + L - 1).
Proof.
  intros Ep El HP HL B.
  assert (BP : P <= MAX_SAFE_INTEGER) by nia.
  rewrite (page_range_forward page limit P L) by (auto; lia).
  unfold bounds. cbn [fst snd].
  rewrite !to_Z_of_Z by (unfold safe, MAX_SAFE_INTEGER in *; nia).
  reflexivity.
Qed.

Variables (db : Database) (now : string).

(** X5.  The count does not depend on the page: two successful listings
    with the same filters report the same count, whatever their page
    and limit. *)
Theorem count_is_independent_of_the_page :
  (forall p page limit page' limit' res res',
      outcome (getUsersForAdmin (Some (users_on page limit p))) (serving db now)
      = Normal res ->
      outcome (getUsersForAdmin (Some (users_on page' limit' p))) (serving db now)
      = Normal res' ->
      UsersPage.count res = UsersPage.count res')
  /\ (forall page limit page' limit' res res',
         outcome (getPostsForAdmin (Some (posts_at page limit))) (serving db now)
         = Normal res ->
         outcome (getPostsForAdmin (Some (posts_at page' limit'))) (serving db now)
         = Normal res' ->
         PostsPage.count res = PostsPage.count res')
  /\ (forall p page limit page' limit' res res',
         outcome (getReportsForAdmin (Some (reports_on page limit p)))
                 (serving db now) = Normal res ->
         outcome (getReportsForAdmin (Some (reports_on page' limit' p)))
                 (serving db now) = Normal res' ->
         ReportsPage.count res = ReportsPage.count res').
Proof.
  repeat split.
  - intros p page limit page' limit' res res' O O'.
    apply users_answer in O as (all & w & lo & hi & R & W & _ & _ & _ & _ & C).
    apply users_answer in O'
        as (all' & w' & lo' & hi' & R' & W' & _ & _ & _ & _ & C').
    rewrite users_where_paging in W, W'. congruence.
  - intros page limit page' limit' res res' O O'.
    apply posts_answer in O
        as (all & us & c & lo & hi & R & U & F & _ & _ & _ & _ & C).
    apply posts_answer in O'
        as (all' & us' & c' & lo' & hi' & R' & U' & F' & _ & _ & _ & _ & C').
    congruence.
  - intros p page limit page' limit' res res' O O'.
    apply reports_answer in O as (all & w & lo & hi & R & W & _ & _ & _ & _ & C).
    apply reports_answer in O'
        as (all' & w' & lo' & hi' & R' & W' & _ & _ & _ & _ & C').
    rewrite reports_where_paging in W, W'. congruence.
Qed.

(** X6.  A page never holds more rows than the count that comes with
    it; and for integers [page >= 1] and [limit >= 1] with
    [page * limit] at most [Number.MAX_SAFE_INTEGER] it never holds more
    than [limit] rows. *)
Theorem page_size_is_bounded :
  (forall p res rows,
      outcome (getUsersForAdmin p) (serving db now) = Normal res ->
      UsersPage.users res = Some rows ->
      Z.of_nat (List.length rows) <= UsersPage.count res
      /\ forall page limit,
          let p' := default GetUsersParams.empty p in
          default (Js.Number.of_Z 1) (GetUsersParams.page p')
          = Js.Number.of_Z page ->
          default (Js.Number.of_Z 10) (GetUsersParams.limit p')
          = Js.Number.of_Z limit ->
          1 <= page -> 1 <= limit -> page * limit <= MAX_SAFE_INTEGER ->
          Z.of_nat (List.length rows) <= limit)
  /\ (forall p res,
         outcome (getPostsForAdmin p) (serving db now) = Normal res ->
         Z.of_nat (List.length (PostsPage.posts res)) <= PostsPage.count res
         /\ forall page limit,
             let p' := default GetAdminPostsParams.empty p in
             default (Js.Number.of_Z 1) (GetAdminPostsParams.page p')
             = Js.Number.of_Z page ->
             default (Js.Number.of_Z 10) (GetAdminPostsParams.limit p')
             = Js.Number.of_Z limit ->
             1 <= page -> 1 <= limit -> page * limit <= MAX_SAFE_INTEGER ->
             Z.of_nat (List.length (PostsPage.posts res)) <= limit)
  /\ (forall p res rows,
         outcome (getReportsForAdmin p) (serving db now) = Normal res ->
         ReportsPage.reports res = Some rows ->
         Z.of_nat (List.length rows) <= ReportsPage.count res
         /\ forall page limit,
             let p' := default GetReportsParams.empty p in
             default (Js.Number.of_Z 1) (GetReportsParams.page p')
             = Js.Number.of_Z page ->
             default (Js.Number.of_Z 10) (GetReportsParams.limit p')
             = Js.Number.of_Z limit ->
             1 <= page -> 1 <= limit -> page * limit <= MAX_SAFE_INTEGER ->
             Z.of_nat (List.length rows) <= limit).
Proof.
  split; [| split].
  - intros p res rows. rewrite users_arg. intros O E.
    apply users_answer in O as (all & w & lo & hi & R & W & B & A & H & D & C).
    rewrite E in D. injection D as ->. split.
    + rewrite C. apply page_below_count.
    + intros page limit p' Ep El Hp Hl S. subst p'.
      rewrite (bounds_forward _ _ page limit Ep El Hp Hl S) in B.
      injection B as <- <-.
      match goal with
      | |- context [slice ?a ?b ?l] =>
          pose proof (page_size_bound a b l ltac:(lia))
      end.
      lia.
  - intros p res. rewrite posts_arg. intros O.
    apply posts_answer in O
        as (all & us & c & lo & hi & R & U & F & B & A & H & D & C).
    rewrite D. split.
    + rewrite C. apply page_below_count.
    + intros page limit p' Ep El Hp Hl S. subst p'.
      rewrite (bounds_forward _ _ page limit Ep El Hp Hl S) in B.
      injection B as <- <-.
      match goal with
      | |- context [slice ?a ?b ?l] =>
          pose proof (page_size_bound a b l ltac:(lia))
      end.
      lia.
  - intros p res rows. rewrite reports_arg. intros O E.
    apply reports_answer in O as (all & w & lo & hi & R & W & B & A & H & D & C).
    rewrite E in D. injection D as ->. split.
    + rewrite C. apply page_below_count.
    + intros page limit p' Ep El Hp Hl S. subst p'.
      rewrite (bounds_forward _ _ page limit Ep El Hp Hl S) in B.
      injection B as <- <-.
      match goal with
      | |- context [slice ?a ?b ?l] =>
          pose proof (page_size_bound a b l ltac:(lia))
      end.
      lia.
Qed.

End Pages.

Section Crowd.

Import Postgrest.
Local Open Scope list_scope.

Lemma sort_repeat keys n : sort keys (repeat ([] : Row) n) = repeat [] n.
Proof.
  assert (O : in_order keys [] [] = true).
  { induction keys as [| [c asc] keys IH]; [reflexivity | exact IH]. }
  unfold sort. induction n as [| n IH]; [reflexivity |].
  cbn [repeat fold_right]. rewrite IH.
  destruct n as [| n]; [reflexivity |]. cbn [repeat insert]. rewrite O.
  reflexivity.
Qed.

Lemma drop_repeat (r : Row) a n :
  (0 <= a)%Z -> drop a (repeat r n) = repeat r (n - Z.to_nat a).
Proof.
  revert a. induction n as [| n IH]; intros a H; [reflexivity |].
  cbn [repeat drop]. destruct (a <=? 0)%Z eqn:E.
  - apply Z.leb_le in E. replace (S n - Z.to_nat a)%nat with (S n) by lia.
    reflexivity.
  - apply Z.leb_gt in E. rewrite IH by lia. f_equal. lia.
Qed.

Lemma take_repeat (r : Row) k n :
  take k (repeat r n) = repeat r (Nat.min (Z.to_nat k) n).
Proof.
  revert k. induction n as [| n IH]; intros k.
  - rewrite Nat.min_0_r. reflexivity.
  - cbn [repeat take]. destruct (k <=? 0)%Z eqn:E.
    + apply Z.leb_le in E. replace (Z.to_nat k) with 0%nat by lia. reflexivity.
    + apply Z.leb_gt in E. rewrite IH.
      replace (Nat.min (Z.to_nat k) (S n))
        with (S (Nat.min (Z.to_nat (k - 1)) n)) by lia.
      reflexivity.
Qed.

End Crowd.

(** Without the bound on [page * limit] a page can hold more than
    [limit] rows: page 3002399751580332 of size 3 of a table of
    2^53 + 5 rows is asked for as rows 2^53 to 2^53 + 4, and holds 5. *)
Lemma page_of_three_holds_five :
  exists rows,
    outcome (getUsersForAdmin (Some (users_at 3002399751580332 3)))
            (Postgrest.serving crowded "2024-06-01T00:00:00.000Z")
    = Normal {| UsersPage.users := Some rows;
                UsersPage.count := 9007199254740997 |}
    /\ List.length rows = 5%nat.
Proof.
  exists (Postgrest.slice 9007199254740992 9007199254740996
            (Postgrest.sort [("created_at", false)]
                            (filter (fun _ => true) crowd))).
  split.
  - rewrite (users_returned crowded _ _ crowd (fun _ => true)
               9007199254740992 9007199254740996).
    + rewrite filter_true. unfold crowd. rewrite repeat_length.
      rewrite Z2Nat.id by lia. reflexivity.
    + reflexivity.
    + vm_compute. reflexivity.
    + vm_compute. reflexivity.
    + lia.
    + lia.
  - rewrite filter_true. unfold crowd. rewrite sort_repeat.
    unfold Postgrest.slice. rewrite drop_repeat by lia.
    rewrite take_repeat, repeat_length.
    replace (Z.to_nat 9007199254740997 - Z.to_nat 9007199254740992)%nat
      with (Z.to_nat 5) by (rewrite <- Z2Nat.inj_sub by lia; reflexivity).
    reflexivity.
Qed.


Section Filtered.

Import Postgrest.
Local Open Scope list_scope.

Lemma reports_where p :
  exists w,
    where_ (calls (reports_query p)) = Some w
    /\ forall u, w u = matches_eq "status" (GetReportsParams.status p) u.
Proof.
  unfold reports_query. destruct (page_range _ _) as [lo hi].
  cbn [calls]. unfold opt_call, matches_eq.
  destruct (provided (GetReportsParams.status p));
    cbn [app where_ option_map holds]; eexists; (split; [reflexivity |]);
    intros u; cbv beta; rewrite ?andb_true_r; reflexivity.
Qed.

Lemma users_where_no_search p :
  provided (GetUsersParams.search p) = None ->
  exists w,
    where_ (calls (users_query p)) = Some w
    /\ forall u, w u = matches_eq "role" (GetUsersParams.role p) u
                       && matches_eq "tier" (GetUsersParams.tier p) u.
Proof.
  intros S. unfold users_query. destruct (page_range _ _) as [lo hi].
  cbn [calls]. unfold opt_call, matches_eq. rewrite S.
  destruct (provided (GetUsersParams.role p));
    destruct (provided (GetUsersParams.tier p));
    cbn [app where_ option_map holds]; eexists; (split; [reflexivity |]);
    intros u; cbv beta; rewrite ?andb_true_r; reflexivity.
Qed.

Lemma matches_eq_column c x v u :
  provided x = Some v -> matches_eq c x u = true -> column c u = Some v.
Proof.
  unfold matches_eq. intros ->. destruct (column c u) as [y |]; [| discriminate].
  intros E. apply String.eqb_eq in E. congruence.
Qed.

Variables (db : Database) (now : string).

(** X7.  With a status given, a listing of reports returns only reports
    of that status, all of them rows of the reports table, and its count
    is the number of reports of that status. *)
Theorem report_status_filter (p : GetReportsParams.t) (s : string) :
  provided (GetReportsParams.status p) = Some s ->
  forall res,
    outcome (getReportsForAdmin (Some p)) (serving db now) = Normal res ->
    exists all,
      relation "reports" db = Some all
      /\ ReportsPage.count res
         = Z.of_nat (List.length
                       (filter (fun u => match column "status" u with
                                         | Some x => (x =? s)%string
                                         | None => false
                                         end) all))
      /\ forall rows u,
          ReportsPage.reports res = Some rows -> In u rows ->
          In u all /\ column "status" u = Some s.
Proof.
  intros S res O.
  apply reports_answer in O as (all & w & lo & hi & R & W & _ & _ & _ & D & C).
  destruct (reports_where p) as (w' & W' & F). rewrite W in W'.
  injection W' as <-. exists all. split; [exact R |]. split.
  - rewrite C. f_equal. f_equal. apply filter_ext. intros u. rewrite F.
    unfold matches_eq. rewrite S. reflexivity.
  - intros rows u E I. rewrite E in D. injection D as ->.
    apply In_slice, In_sort, filter_In in I as [I P]. split; [exact I |].
    rewrite F in P. exact (matches_eq_column _ _ _ _ S P).
Qed.

End Filtered.

(** The pending reports of the sample. *)
Lemma pending_reports_example :
  let p := {| GetReportsParams.page := None; GetReportsParams.limit := None;
              GetReportsParams.status := Some "pending" |} in
  exists res,
    outcome (getReportsForAdmin (Some p))
            (Postgrest.serving sample "2024-06-01T00:00:00.000Z") = Normal res
    /\ exists all,
      Postgrest.relation "reports" sample = Some all
      /\ ReportsPage.count res
         = Z.of_nat (List.length
                       (filter (fun u => match Postgrest.column "status" u with
                                         | Some x => x =? "pending"
                                         | None => false
                                         end) all))
      /\ forall rows u,
          ReportsPage.reports res = Some rows -> In u rows ->
          In u all /\ Postgrest.column "status" u = Some "pending".
Proof.
  eexists. split; [reflexivity |].
  exact (report_status_filter sample "2024-06-01T00:00:00.000Z"
           {| GetReportsParams.page := None; GetReportsParams.limit := None;
              GetReportsParams.status := Some "pending" |}
           "pending" eq_refl _ eq_refl).
Defined.

Section Unsearched.

Import Postgrest.
Local Open Scope list_scope.

Variables (db : Database) (now : string).

(** X8.  Without a search term a listing of users is filtered by the
    role and the tier asked for and by nothing else: every returned user
    has them, and the count is the number of users that have them. *)
Theorem role_and_tier_filters (p : GetUsersParams.t) :
  provided (GetUsersParams.search p) = None ->
  forall res,
    outcome (getUsersForAdmin (Some p)) (serving db now) = Normal res ->
    exists all,
      relation "users" db = Some all
      /\ UsersPage.count res
         = Z.of_nat (List.length
                       (filter (fun u =>
                                  matches_eq "role" (GetUsersParams.role p) u
                                  && matches_eq "tier" (GetUsersParams.tier p) u)
                               all))
      /\ forall rows u,
          UsersPage.users res = Some rows -> In u rows ->
          In u all
          /\ (forall r, provided (GetUsersParams.role p) = Some r ->
                        column "role" u = Some r)
          /\ (forall t, provided (GetUsersParams.tier p) = Some t ->
                        column "tier" u = Some t).
Proof.
  intros S res O.
  apply users_answer in O as (all & w & lo & hi & R & W & _ & _ & _ & D & C).
  destruct (users_where_no_search p S) as (w' & W' & F). rewrite W in W'.
  injection W' as <-. exists all. split; [exact R |]. split.
  - rewrite C. f_equal. f_equal. apply filter_ext. exact F.
  - intros rows u E I. rewrite E in D. injection D as ->.
    apply In_slice, In_sort, filter_In in I as [I P].
    rewrite F in P. apply andb_true_iff in P as [P1 P2].
    split; [exact I |]. split; intros v V.
    + exact (matches_eq_column _ _ _ _ V P1).
    + exact (matches_eq_column _ _ _ _ V P2).
Qed.

(** X9.  A listing of posts is filtered by nothing but the required
    owner: its query has no filter call, requires the relation [users],
    and makes the sort call before the row range call; its count is the
    number of posts whose owner can be resolved, and its rows are such
    posts.  On a range of row numbers that starts at no negative row it
    returns that slice of them, newest first. *)
Theorem posts_with_an_owner_only :
  (forall env p,
      exists q,
        sent (getPostsForAdmin p) env = [q]
        /\ equalities (calls q) = []
        /\ where_ (calls q) = Some (fun _ => true)
        /\ flat_map inner_relations (selected (calls q)) = ["users"%string]
        /\ applied_before is_sort is_range (calls q) = true
        /\ applied_before is_range is_sort (calls q) = false)
  /\ (forall p res,
         outcome (getPostsForAdmin p) (serving db now) = Normal res ->
         exists all users c,
           relation "posts" db = Some all
           /\ relation "users" db = Some users
           /\ reference "posts" "users" (foreign_keys db) = Some c
           /\ PostsPage.count res = Z.of_nat (List.length (owned c users all))
           /\ forall u, In u (PostsPage.posts res) ->
                        In u all /\ refers c users u = true)
  /\ (forall p all users c lo hi,
         let p' := default GetAdminPostsParams.empty p in
         relation "posts" db = Some all ->
         relation "users" db = Some users ->
         reference "posts" "users" (foreign_keys db) = Some c ->
         bounds (page_range (GetAdminPostsParams.page p')
                            (GetAdminPostsParams.limit p'))
         = Some (lo, hi) ->
         (0 <= lo)%Z -> (0 <= hi - lo + 1)%Z ->
         outcome (getPostsForAdmin p) (serving db now)
         = Normal {| PostsPage.posts :=
                       slice lo hi (sort [("created_at"%string, false)]
                                         (owned c users all));
                     PostsPage.count :=
                       Z.of_nat (List.length (owned c users all)) |}).
Proof.
  split; [| split].
  - intros env p. rewrite posts_arg, posts_sent.
    eexists; split; [reflexivity |].
    unfold posts_query. destruct (page_range _ _) as [lo hi].
    repeat split.
  - intros p res. rewrite posts_arg. intros O.
    apply posts_answer in O
        as (all & us & c & lo & hi & R & U & F & _ & _ & _ & D & C).
    exists all, us, c. split; [exact R |]. split; [exact U |].
    split; [exact F |]. split; [exact C |].
    intros u. rewrite D. intros I.
    apply In_slice, In_sort in I. unfold owned in I.
    apply filter_In in I. exact I.
  - intros p all users c lo hi p' R U F B L H. rewrite posts_arg. fold p'.
    apply posts_returned; assumption.
Qed.

End Unsearched.

(** The admins of the sample. *)
Lemma admins_example :
  let p := {| GetUsersParams.page := None; GetUsersParams.limit := None;
              GetUsersParams.search := None;
              GetUsersParams.role := Some "admin";
              GetUsersParams.tier := None |} in
  exists res,
    outcome (getUsersForAdmin (Some p))
            (Postgrest.serving sample "2024-06-01T00:00:00.000Z") = Normal res
    /\ exists all,
      Postgrest.relation "users" sample = Some all
      /\ UsersPage.count res
         = Z.of_nat (List.length
                       (filter (fun u =>
                                  matches_eq "role" (Some "admin") u
                                  && matches_eq "tier" None u)
                               all))
      /\ forall rows u,
          UsersPage.users res = Some rows -> In u rows ->
          In u all
          /\ (forall r, provided (Some "admin") = Some r ->
                        Postgrest.column "role" u = Some r)
          /\ (forall t, provided None = Some t ->
                        Postgrest.column "tier" u = Some t).
Proof.
  eexists. split; [reflexivity |].
  exact (role_and_tier_filters sample "2024-06-01T00:00:00.000Z"
           {| GetUsersParams.page := None; GetUsersParams.limit := None;
              GetUsersParams.search := None;
              GetUsersParams.role := Some "admin";
              GetUsersParams.tier := None |}
           eq_refl _ eq_refl).
Defined.

(* ================================================================== *)
(** ** Newest first *)

Section Sorted.

Import Postgrest.
Local Open Scope list_scope.

Lemma compare_value_antisym a b :
  compare_value a b = CompOpp (compare_value b a).
Proof.
  destruct a as [x |], b as [y |]; cbn; try reflexivity.
  apply String.compare_antisym.
Qed.

Lemma in_order_total keys r1 r2 :
  in_order keys r1 r2 = false -> in_order keys r2 r1 = true.
Proof.
  induction keys as [| [c asc] keys IH]; cbn; [discriminate |].
  rewrite (compare_value_antisym (column c r2) (column c r1)).
  destruct (compare_value (column c r1) (column c r2)); cbn [CompOpp].
  - exact IH.
  - intros ->. reflexivity.
  - destruct asc; [reflexivity | discriminate].
Qed.

Lemma in_sequence_tail keys r rows :
  in_sequence keys (r :: rows) = true -> in_sequence keys rows = true.
Proof.
  destruct rows as [| r' rows]; cbn; [reflexivity |].
  intros H. apply andb_true_iff in H as [_ H]. exact H.
Qed.

Lemma in_sequence_insert keys r rows :
  in_sequence keys rows = true -> in_sequence keys (insert keys r rows) = true.
Proof.
  induction rows as [| r1 rows IH]; [reflexivity |].
  intros H. cbn [insert]. destruct (in_order keys r r1) eqn:E.
  - cbn [in_sequence]. rewrite E. exact H.
  - apply in_order_total in E. specialize (IH (in_sequence_tail _ _ _ H)).
    destruct rows as [| r2 rows].
    + cbn. rewrite E. reflexivity.
    + cbn [insert] in IH |- *. cbn [in_sequence] in H.
      apply andb_true_iff in H as [H12 H].
      destruct (in_order keys r r2).
      * cbn [in_sequence] in IH |- *. rewrite E. exact IH.
      * change (in_order keys r1 r2 && in_sequence keys (r2 :: insert keys r rows)
                = true).
        rewrite H12. exact IH.
Qed.

Lemma in_sequence_sort keys rows : in_sequence keys (sort keys rows) = true.
Proof.
  unfold sort. induction rows as [| r rows IH]; cbn [fold_right];
    [reflexivity | apply in_sequence_insert, IH].
Qed.

Lemma in_sequence_drop keys n rows :
  in_sequence keys rows = true -> in_sequence keys (drop n rows) = true.
Proof.
  revert n. induction rows as [| r rows IH]; intros n H; [reflexivity |].
  cbn [drop]. destruct (n <=? 0)%Z; [exact H |].
  apply IH. exact (in_sequence_tail _ _ _ H).
Qed.

Lemma in_sequence_take keys n rows :
  in_sequence keys rows = true -> in_sequence keys (take n rows) = true.
Proof.
  revert n. induction rows as [| r rows IH]; intros n H; [reflexivity |].
  cbn [take]. destruct (n <=? 0)%Z; [reflexivity |].
  specialize (IH (n - 1)%Z (in_sequence_tail _ _ _ H)).
  destruct rows as [| r' rows]; [reflexivity |].
  cbn [take] in IH |- *. destruct (n - 1 <=? 0)%Z; [reflexivity |].
  cbn [in_sequence] in H. apply andb_true_iff in H as [H1 _].
  change (in_order keys r r'
          && in_sequence keys (r' :: take (n - 1 - 1) rows) = true).
  rewrite H1. exact IH.
Qed.

Lemma in_sequence_slice keys a b rows :
  in_sequence keys (slice a b (sort keys rows)) = true.
Proof.
  unfold slice. apply in_sequence_take, in_sequence_drop, in_sequence_sort.
Qed.

Variables (db : Database) (now : string).

(** X10.  The rows of a listing come newest first: no returned row has a
    [created_at] below that of the row after it. *)
Theorem rows_come_newest_first :
  (forall p res rows,
      outcome (getUsersForAdmin p) (serving db now) = Normal res ->
      UsersPage.users res = Some rows ->
      in_sequence [("created_at"%string, false)] rows = true)
  /\ (forall p res,
         outcome (getPostsForAdmin p) (serving db now) = Normal res ->
         in_sequence [("created_at"%string, false)] (PostsPage.posts res) = true)
  /\ (forall p res rows,
         outcome (getReportsForAdmin p) (serving db now) = Normal res ->
         ReportsPage.reports res = Some rows ->
         in_sequence [("created_at"%string, false)] rows = true).
Proof.
  split; [| split].
  - intros p res rows. rewrite users_arg. intros O E.
    apply users_answer in O as (all & w & lo & hi & _ & _ & _ & _ & _ & D & _).
    rewrite E in D. injection D as ->. apply in_sequence_slice.
  - intros p res. rewrite posts_arg. intros O.
    apply posts_answer in O
        as (all & us & c & lo & hi & _ & _ & _ & _ & _ & _ & D & _).
    rewrite D. apply in_sequence_slice.
  - intros p res rows. rewrite reports_arg. intros O E.
    apply reports_answer in O as (all & w & lo & hi & _ & _ & _ & _ & _ & D & _).
    rewrite E in D. injection D as ->. apply in_sequence_slice.
Qed.

End Sorted.

(* ================================================================== *)
(** ** The report update against the database *)

Section Updated.

Import Postgrest.
Local Open Scope list_scope.

Lemma replace_same t rows ts : lookup t ts = Some rows -> replace t rows ts = ts.
Proof.
  induction ts as [| [k old] ts IH]; cbn; [reflexivity |].
  destruct (k =? t)%string.
  - intros E; injection E as ->. reflexivity.
  - intros E. rewrite (IH E). reflexivity.
Qed.

Lemma replace_replace t rows rows' ts :
  replace t rows' (replace t rows ts) = replace t rows' ts.
Proof.
  induction ts as [| [k old] ts IH]; cbn; [reflexivity |].
  destruct (k =? t)%string eqn:E; cbn; rewrite E; [| rewrite IH]; reflexivity.
Qed.

Lemma lookup_replace_other t t' rows ts :
  t' <> t -> lookup t' (replace t rows ts) = lookup t' ts.
Proof.
  intros N. induction ts as [| [k old] ts IH]; cbn; [reflexivity |].
  destruct (k =? t)%string eqn:E; cbn.
  - apply String.eqb_eq in E. subst k.
    destruct (t =? t')%string eqn:E'; [| reflexivity].
    apply String.eqb_eq in E'. congruence.
  - rewrite IH. reflexivity.
Qed.

Lemma store_same t rows db : relation t db = Some rows -> store t rows db = db.
Proof.
  destruct db as [ts fks]. unfold relation, store. cbn [tables foreign_keys].
  intros E. rewrite (replace_same _ _ _ E). reflexivity.
Qed.

Lemma store_store t rows rows' db :
  store t rows' (store t rows db) = store t rows' db.
Proof.
  unfold store. cbn [tables foreign_keys]. rewrite replace_replace. reflexivity.
Qed.

Lemma relation_store_other t t' rows db :
  t' <> t -> relation t' (store t rows db) = relation t' db.
Proof. intros N. apply lookup_replace_other, N. Qed.

Lemma exec_report_update db reportId status adminId now :
  fst (exec db (report_update_query reportId status adminId now))
  = match relation "reports" db with
    | Some rows =>
        store "reports" (map (amend reportId status adminId now) rows) db
    | None => db
    end.
Proof.
  unfold exec. cbn [table calls report_update_query].
  destruct (relation "reports" db) as [rows |]; [| reflexivity].
  cbn [where_ updating option_map fst joins selected flat_map map sequence].
  f_equal.
  apply map_ext. intros r. unfold amend. rewrite andb_true_r. reflexivity.
Qed.

Lemma column_patch c status adminId now r :
  c <> "status"%string -> c <> "resolver_admin_id"%string ->
  c <> "resolved_at"%string ->
  column c (patch (update_values status adminId now) r) = column c r.
Proof.
  intros N1 N2 N3. unfold patch, update_values. cbn [fold_left fst snd].
  rewrite !column_set_other by assumption. reflexivity.
Qed.

Lemma column_amend c reportId status adminId now r :
  c <> "status"%string -> c <> "resolver_admin_id"%string ->
  c <> "resolved_at"%string ->
  column c (amend reportId status adminId now r) = column c r.
Proof.
  intros N1 N2 N3. unfold amend.
  destruct (holds _ r); [apply column_patch; assumption | reflexivity].
Qed.

Lemma has_entry_set c v r : has_entry c v (set_column c v r).
Proof.
  induction r as [| [k x] r IH]; cbn.
  - rewrite String.eqb_refl. reflexivity.
  - destruct (k =? c)%string eqn:E; cbn; rewrite E; auto.
Qed.

Lemma has_entry_set_other c v c' v' r :
  c <> c' -> has_entry c v r -> has_entry c v (set_column c' v' r).
Proof.
  intros N. induction r as [| [k x] r IH]; cbn; [contradiction |].
  destruct (k =? c)%string eqn:E.
  - intros ->. apply String.eqb_eq in E. subst k.
    destruct (c =? c')%string eqn:E'.
    + apply String.eqb_eq in E'. contradiction.
    + cbn. rewrite String.eqb_refl. reflexivity.
  - intros H. destruct (k =? c')%string eqn:E'; cbn; rewrite E; auto.
Qed.

Lemma set_column_has_entry c v r : has_entry c v r -> set_column c v r = r.
Proof.
  induction r as [| [k x] r IH]; cbn; [contradiction |].
  destruct (k =? c)%string.
  - intros ->. reflexivity.
  - intros H. rewrite (IH H). reflexivity.
Qed.

Lemma patch_patch status adminId now r :
  patch (update_values status adminId now)
        (patch (update_values status adminId now) r)
  = patch (update_values status adminId now) r.
Proof.
  unfold patch, update_values. cbn [fold_left fst snd].
  set (v := if includes _ status then Some now else None).
  rewrite (set_column_has_entry "status").
  2: { apply has_entry_set_other; [discriminate |].
       apply has_entry_set_other; [discriminate |]. apply has_entry_set. }
  rewrite (set_column_has_entry "resolver_admin_id").
  2: { apply has_entry_set_other; [discriminate |]. apply has_entry_set. }
  apply set_column_has_entry, has_entry_set.
Qed.

Lemma amend_amend reportId status adminId now r :
  amend reportId status adminId now (amend reportId status adminId now r)
  = amend reportId status adminId now r.
Proof.
  unfold amend at 2. destruct (holds _ r) eqn:E.
  - unfold amend. unfold holds in *.
    rewrite column_patch by discriminate. rewrite E. apply patch_patch.
  - unfold amend. rewrite E. reflexivity.
Qed.

Variables (db : Database) (now : string).

(** X11.  An update of a report that is not there succeeds all the same:
    when no row of the reports table has the id, the call returns
    [{success: true}] and the database is as before. *)
Theorem update_of_a_missing_report (reportId status adminId : string)
        (rows : list Row) :
  relation "reports" db = Some rows ->
  (forall r, In r rows -> column "id" r <> Some reportId) ->
  outcome (updateReportStatusForAdmin reportId status adminId) (serving db now)
  = Normal {| success := true |}
  /\ forall q,
      sent (updateReportStatusForAdmin reportId status adminId) (serving db now)
      = [q] ->
      fst (exec db q) = db.
Proof.
  intros R N. split.
  - rewrite report_update_outcome. cbv zeta. cbn [client serving clock].
    unfold exec. cbn [table calls report_update_query]. rewrite R. reflexivity.
  - intros q. rewrite report_update_sent. intros <-%sent_one.
    cbn [clock serving]. rewrite exec_report_update, R.
    replace (map _ rows) with rows; [apply store_same, R |].
    rewrite <- (map_id rows) at 1. apply map_ext_in. intros r I.
    unfold amend, holds. specialize (N r I).
    destruct (column "id" r) as [x |]; [| reflexivity].
    destruct (x =? reportId)%string eqn:E; [| reflexivity].
    apply String.eqb_eq in E. congruence.
Qed.

(** X12.  A report update touches nothing but the three columns it sets:
    the other tables are as before, and the reports table has the same
    number of rows with the same value in every other column, the id
    among them. *)
Theorem update_keeps_the_rest (reportId status adminId : string) :
  forall q,
    sent (updateReportStatusForAdmin reportId status adminId) (serving db now)
    = [q] ->
    (forall t, t <> "reports"%string ->
               relation t (fst (exec db q)) = relation t db)
    /\ (relation "reports" db = None -> fst (exec db q) = db)
    /\ (forall rows,
           relation "reports" db = Some rows ->
           exists rows',
             relation "reports" (fst (exec db q)) = Some rows'
             /\ List.length rows' = List.length rows
             /\ forall c,
                 c <> "status"%string -> c <> "resolver_admin_id"%string ->
                 c <> "resolved_at"%string ->
                 map (column c) rows' = map (column c) rows).
Proof.
  intros q. rewrite report_update_sent. intros <-%sent_one.
  cbn [clock serving]. rewrite exec_report_update.
  split; [| split].
  - intros t N. destruct (relation "reports" db); [| reflexivity].
    apply relation_store_other, N.
  - intros ->. reflexivity.
  - intros rows R. rewrite R. eexists.
    split; [apply (relation_store _ _ _ _ R) |].
    split; [apply length_map |].
    intros c N1 N2 N3. rewrite map_map. apply map_ext. intros r.
    apply column_amend; assumption.
Qed.

(** X13.  Repeating a report update at the same instant changes nothing
    more: the database after the second call is the database after the
    first. *)
Theorem report_update_is_idempotent (reportId status adminId : string) :
  forall q,
    sent (updateReportStatusForAdmin reportId status adminId) (serving db now)
    = [q] ->
    forall q',
      sent (updateReportStatusForAdmin reportId status adminId)
           (serving (fst (exec db q)) now) = [q'] ->
      fst (exec (fst (exec db q)) q') = fst (exec db q).
Proof.
  intros q. rewrite report_update_sent. intros <-%sent_one.
  intros q'. rewrite report_update_sent. intros <-%sent_one.
  cbn [clock serving]. rewrite !exec_report_update.
  destruct (relation "reports" db) as [rows |] eqn:R.
  - rewrite (relation_store _ _ _ _ R), store_store, map_map.
    f_equal. apply map_ext. intros r. apply amend_amend.
  - rewrite R. reflexivity.
Qed.

End Updated.

(** No report of the sample has the id [r9]. *)
Lemma missing_report_example :
  outcome (updateReportStatusForAdmin "r9" "resolved" "admin-7")
          (Postgrest.serving sample "2024-06-01T00:00:00.000Z")
  = Normal {| success := true |}
  /\ forall q,
      sent (updateReportStatusForAdmin "r9" "resolved" "admin-7")
           (Postgrest.serving sample "2024-06-01T00:00:00.000Z") = [q] ->
      fst (Postgrest.exec sample q) = sample.
Proof.
  apply (update_of_a_missing_report sample "2024-06-01T00:00:00.000Z"
           "r9" "resolved" "admin-7"
           [report "r1" "pending"; report "r2" "pending"] eq_refl).
  intros r [<- | [<- | []]]; vm_compute; discriminate.
Defined.

(** Resolving report [r1] of the sample leaves users and posts alone. *)
Lemma resolve_r1_keeps_the_rest :
  let db := sample in
  let q := report_update_query "r1" "resolved" "admin-7"
                               "2024-06-01T00:00:00.000Z" in
  (forall t, t <> "reports" ->
             Postgrest.relation t (fst (Postgrest.exec db q))
             = Postgrest.relation t db)
  /\ (Postgrest.relation "reports" db = None -> fst (Postgrest.exec db q) = db)
  /\ (forall rows,
         Postgrest.relation "reports" db = Some rows ->
         exists rows',
           Postgrest.relation "reports" (fst (Postgrest.exec db q)) = Some rows'
           /\ List.length rows' = List.length rows
           /\ forall c,
               c <> "status" -> c <> "resolver_admin_id" ->
               c <> "resolved_at" ->
               map (Postgrest.column c) rows' = map (Postgrest.column c) rows).
Proof.
  exact (update_keeps_the_rest sample "2024-06-01T00:00:00.000Z"
           "r1" "resolved" "admin-7" _ eq_refl).
Defined.

(** Resolving report [r1] of the sample twice. *)
Lemma resolve_r1_twice :
  let q := report_update_query "r1" "resolved" "admin-7"
                               "2024-06-01T00:00:00.000Z" in
  fst (Postgrest.exec (fst (Postgrest.exec sample q)) q)
  = fst (Postgrest.exec sample q).
Proof.
  exact (report_update_is_idempotent sample "2024-06-01T00:00:00.000Z"
           "r1" "resolved" "admin-7" _ eq_refl _ eq_refl).
Defined.

(* ================================================================== *)
(** ** Listings do not write, and the search ignores case *)

Section ReadOnly.

Import Postgrest.
Local Open Scope list_scope.

Lemma exec_without_update db q :
  updating (calls q) = None -> fst (exec db q) = db.
Proof.
  intros U. unfold exec.
  destruct (relation (table q) db); [| reflexivity].
  destruct (where_ (calls q)); [| reflexivity].
  destruct (joins db (table q) (calls q)); [| reflexivity]. rewrite U.
  destruct (window (calls q)) as [r |]; [| reflexivity].
  destruct (bounds r) as [[lo hi] |]; [| reflexivity].
  destruct (_ || _); reflexivity.
Qed.

Lemma posts_shape p : updating (calls (posts_query p)) = None.
Proof. unfold posts_query. destruct (page_range _ _). reflexivity. Qed.

(** X14.  A listing only reads: the query of a list operation carries no
    update, and the database is the same after it as before. *)
Theorem listings_do_not_write (env : Env) (db : Database) :
  (forall p q, sent (getUsersForAdmin p) env = [q] ->
               updating (calls q) = None /\ fst (exec db q) = db)
  /\ (forall p q, sent (getPostsForAdmin p) env = [q] ->
                  updating (calls q) = None /\ fst (exec db q) = db)
  /\ (forall p q, sent (getReportsForAdmin p) env = [q] ->
                  updating (calls q) = None /\ fst (exec db q) = db).
Proof.
  split; [| split]; intros p q.
  - rewrite users_arg, users_sent. intros <-%sent_one.
    destruct (users_shape (default GetUsersParams.empty p)) as (U & _).
    split; [exact U | apply exec_without_update, U].
  - rewrite posts_arg, posts_sent. intros <-%sent_one.
    pose proof (posts_shape (default GetAdminPostsParams.empty p)) as U.
    split; [exact U | apply exec_without_update, U].
  - rewrite reports_arg, reports_sent. intros <-%sent_one.
    destruct (reports_shape (default GetReportsParams.empty p)) as (U & _).
    split; [exact U | apply exec_without_update, U].
Qed.

Lemma paren_lower (c : ascii) : paren (lower c) = paren c.
Proof. destruct c as [[] [] [] [] [] [] [] []]; reflexivity. Qed.

Lemma existsb_paren_lower (s : list ascii) :
  existsb paren (map lower s) = existsb paren s.
Proof.
  induction s as [| c s IH]; cbn; [| rewrite paren_lower, IH]; reflexivity.
Qed.

Lemma includes_ci_lower (s s' v : string) :
  map lower (chars s) = map lower (chars s') ->
  includes_ci s v = includes_ci s' v.
Proof. unfold includes_ci. intros ->. reflexivity. Qed.

Lemma listing_ext keys (w w' : Row -> bool) range all :
  (forall u, w u = w' u) ->
  listing keys w range all = listing keys w' range all.
Proof.
  intros F. unfold listing. rewrite (filter_ext _ _ F). reflexivity.
Qed.

Lemma listing_at_ext keys (w w' : Row -> bool) range all :
  (forall u, w u = w' u) ->
  listing_at keys w range all = listing_at keys w' range all.
Proof.
  intros F. unfold listing_at.
  destruct (bounds range); [apply listing_ext, F | reflexivity].
Qed.

Lemma users_where_none p s :
  provided (GetUsersParams.search p) = Some s ->
  plain s = true ->
  where_ (calls (users_query p)) = None <-> existsb paren (chars s) = true.
Proof.
  intros S H. unfold users_query. destruct (page_range _ _) as [lo hi].
  cbn [calls]. unfold opt_call, search_filter. rewrite S.
  destruct (provided (GetUsersParams.role p)),
           (provided (GetUsersParams.tier p));
    cbn [app where_ option_map];
    rewrite (parse_search_filter _ (plain_no_comma _ H));
    destruct (existsb paren (chars s)); split; intros E;
    try reflexivity; discriminate.
Qed.

(** X15.  The search ignores the case of the term as well: two plain
    search terms that differ in case only give the same result, rows
    and count, with the other parameters the same. *)
Theorem search_ignores_case (db0 : Database) (now : string)
        (p p' : GetUsersParams.t) (s s' : string) :
  provided (GetUsersParams.search p) = Some s ->
  provided (GetUsersParams.search p') = Some s' ->
  plain s = true -> plain s' = true ->
  map lower (chars s) = map lower (chars s') ->
  GetUsersParams.page p = GetUsersParams.page p' ->
  GetUsersParams.limit p = GetUsersParams.limit p' ->
  GetUsersParams.role p = GetUsersParams.role p' ->
  GetUsersParams.tier p = GetUsersParams.tier p' ->
  outcome (getUsersForAdmin (Some p)) (serving db0 now)
  = outcome (getUsersForAdmin (Some p')) (serving db0 now).
Proof.
  intros S S' H H' L Epage Elimit Erole Etier.
  rewrite !users_outcome. cbv zeta. cbn [client serving].
  destruct (relation "users" db0) as [all |] eqn:R.
  - rewrite !(exec_users _ _ _ R).
    pose proof (users_where p s S H) as W.
    pose proof (users_where p' s' S' H') as W'.
    assert (P : existsb paren (chars s) = existsb paren (chars s')).
    { rewrite <- (existsb_paren_lower (chars s)), L.
      apply existsb_paren_lower. }
    rewrite <- Epage, <- Elimit.
    pose proof (users_where_none p s S H) as N.
    pose proof (users_where_none p' s' S' H') as N'.
    destruct (where_ (calls (users_query p))) as [w |],
             (where_ (calls (users_query p'))) as [w' |].
    + rewrite (listing_at_ext _ w w'); [reflexivity |].
      intros u. rewrite W, W'. unfold matches_search, field_includes.
      rewrite <- Erole, <- Etier.
      destruct (column "nickname" u), (column "email" u);
        rewrite ?(includes_ci_lower s s' _ L); reflexivity.
    + exfalso. pose proof (proj1 N' eq_refl) as X. rewrite <- P in X.
      apply N in X. discriminate.
    + exfalso. pose proof (proj1 N eq_refl) as X. rewrite P in X.
      apply N' in X. discriminate.
    + reflexivity.
  - rewrite !exec_no_relation by (rewrite users_table; exact R). reflexivity.
Qed.

End ReadOnly.

(** [ANN] and [ann] find the same users of the sample. *)
Lemma search_ANN_example :
  outcome (getUsersForAdmin (Some (searching "ANN")))
          (Postgrest.serving sample "2024-06-01T00:00:00.000Z")
  = outcome (getUsersForAdmin (Some (searching "ann")))
            (Postgrest.serving sample "2024-06-01T00:00:00.000Z").
Proof.
  exact (search_ignores_case sample "2024-06-01T00:00:00.000Z"
           (searching "ANN") (searching "ann") "ANN" "ann"
           eq_refl eq_refl eq_refl eq_refl eq_refl
           eq_refl eq_refl eq_refl eq_refl).
Defined.

(** Pages 1 and 2 of size 1 of the sample's users report the same
    count. *)
Lemma same_count_example :
  exists res res',
    outcome (getUsersForAdmin (Some (users_on 1 1 GetUsersParams.empty)))
            (Postgrest.serving sample "2024-06-01T00:00:00.000Z") = Normal res
    /\ outcome (getUsersForAdmin (Some (users_on 2 1 GetUsersParams.empty)))
               (Postgrest.serving sample "2024-06-01T00:00:00.000Z") = Normal res'
    /\ UsersPage.count res = UsersPage.count res'.
Proof.
  eexists. eexists. split; [reflexivity |]. split; [reflexivity |].
  exact (proj1 (count_is_independent_of_the_page
                  sample "2024-06-01T00:00:00.000Z")
               GetUsersParams.empty 1 1 2 1 _ _ eq_refl eq_refl).
Defined.

(** A page of size 2 of the sample's users. *)
Lemma page_of_two_example :
  exists res rows,
    outcome (getUsersForAdmin (Some (users_at 1 2)))
            (Postgrest.serving sample "2024-06-01T00:00:00.000Z") = Normal res
    /\ UsersPage.users res = Some rows
    /\ Z.of_nat (List.length rows) <= UsersPage.count res
    /\ Z.of_nat (List.length rows) <= 2.
Proof.
  eexists. eexists. split; [reflexivity |]. split; [reflexivity |].
  destruct (proj1 (page_size_is_bounded sample "2024-06-01T00:00:00.000Z")
                  (Some (users_at 1 2)) _ _ eq_refl eq_refl) as [C L].
  split; [exact C |].
  exact (L 1 2 eq_refl eq_refl ltac:(lia) ltac:(lia)
           ltac:(unfold MAX_SAFE_INTEGER; lia)).
Defined.

(** The posts of the sample: the post whose owner is gone is neither
    returned nor counted. *)
Lemma sample_posts_example :
  outcome (getPostsForAdmin None)
          (Postgrest.serving sample "2024-06-01T00:00:00.000Z")
  = Normal {| PostsPage.posts := [hello]; PostsPage.count := 1 |}.
Proof.
  exact (proj2 (proj2 (posts_with_an_owner_only
                         sample "2024-06-01T00:00:00.000Z"))
               None [hello; orphan] [bob; joanna; carl] "user_id" 0 9
               eq_refl eq_refl eq_refl eq_refl ltac:(lia) ltac:(lia)).
Defined.

(** The users of the sample come newest first. *)
Lemma sample_users_newest_first :
  exists res rows,
    outcome (getUsersForAdmin None)
            (Postgrest.serving sample "2024-06-01T00:00:00.000Z") = Normal res
    /\ UsersPage.users res = Some rows
    /\ in_sequence [("created_at", false)] rows = true.
Proof.
  eexists. eexists. split; [reflexivity |]. split; [reflexivity |].
  exact (proj1 (rows_come_newest_first sample "2024-06-01T00:00:00.000Z")
               None _ _ eq_refl eq_refl).
Defined.

(** Listing the users of the sample leaves the sample as it is. *)
Lemma sample_is_only_read :
  Postgrest.updating (calls (users_query GetUsersParams.empty)) = None
  /\ fst (Postgrest.exec sample (users_query GetUsersParams.empty)) = sample.
Proof.
  exact (proj1 (listings_do_not_write
                  (Postgrest.serving sample "2024-06-01T00:00:00.000Z") sample)
               None (users_query GetUsersParams.empty) eq_refl).
Defined.
